(** * Sortir: scripts/add_swift_file.py

    A shallow embedding of the script that registers a new Swift source
    file in the Xcode project manifest (project.pbxproj), and the
    properties of it that the specification states.

    Conventions of the embedding.
    - A Python [str] is a [text]: a list of characters.  Characters are
      the 8-bit code points of [ascii].
    - The file system is a finite map from paths to file contents.
    - Printing, reading and writing are recorded, in order, in a log.
    - [random] is an arbitrary source of naturals threaded through the
      state; [randbelow n] reduces a draw modulo [n].
    - A function of the script is a computation in the monad [M]:
      it takes the world and returns an outcome (a value, or a raised
      exception) and the new world.
    - A file holds characters.  Files are opened in text mode: a read
      turns every CR LF and every other CR into LF; a write stores the
      text as it is, [os.linesep] being LF on the systems on which the
      project is built.
    - Opening the manifest for reading fails when there is no such
      file, with [FileNotFoundError].  The encoding of the files, and
      the refusals of the operating system (a directory in place of the
      file, missing rights, a full disk), are not part of the model:
      the properties are about runs in which a file that exists can be
      read and a file can be written. *)

From Stdlib Require Import Ascii String List Arith Lia Bool.
From stdpp Require Import gmap strings.
Import ListNotations.

Local Open Scope list_scope.

(** ** Text *)

Abbreviation text := (list ascii).

(** A literal of the source. *)
Definition txt (s : string) : text := list_ascii_of_string s.

Definition TAB : ascii := ascii_of_nat 9.
Definition NL : ascii := ascii_of_nat 10.
Definition DQUOTE : ascii := ascii_of_nat 34.
Definition CR : ascii := ascii_of_nat 13.

(** [s.startswith(p)] *)
Fixpoint startswith (s p : text) {struct p} : bool :=
  match p, s with
  | [], _ => true
  | _ :: _, [] => false
  | b :: p', a :: s' => if Ascii.eqb a b then startswith s' p' else false
  end.

(** [s.endswith(p)]: the last [len(p)] characters of [s] are [p]. *)
Definition endswith (s p : text) : bool :=
  startswith (rev s) (rev p).

(** [needle in hay] for strings: [needle] starts at some position. *)
Fixpoint contains (needle hay : text) : bool :=
  startswith hay needle ||
  match hay with
  | [] => false
  | _ :: h => contains needle h
  end.

(** [s.replace(old, new)]: every occurrence of [old], scanning from the
    left and resuming after each occurrence found, is replaced by [new].
    [skip] counts the characters of the occurrence just found that are
    still to be passed over. *)
Fixpoint replace_from (old new : text) (skip : nat) (s : text) : text :=
  match s with
  | [] => []
  | a :: s' =>
      match skip with
      | S k => replace_from old new k s'
      | O =>
          if startswith s old
          then new ++ replace_from old new (length old - 1) s'
          else a :: replace_from old new 0 s'
      end
  end.

Definition replace (old new s : text) : text :=
  match old with
  | [] => new ++ flat_map (fun a => a :: new) s
  | _ :: _ => replace_from old new 0 s
  end.

(** [s.count(sep)] and [s.split(sep)] for a non-empty [sep], by the same
    scan as [replace]. *)
Fixpoint count_from (sep : text) (skip : nat) (s : text) : nat :=
  match s with
  | [] => 0
  | _ :: s' =>
      match skip with
      | S k => count_from sep k s'
      | O =>
          if startswith s sep
          then S (count_from sep (length sep - 1) s')
          else count_from sep 0 s'
      end
  end.

Definition count (sep s : text) : nat := count_from sep 0 s.

Definition push_front (a : ascii) (ps : list text) : list text :=
  match ps with
  | [] => [[a]]
  | p :: ps' => (a :: p) :: ps'
  end.

Fixpoint split_from (sep : text) (skip : nat) (s : text) : list text :=
  match s with
  | [] => [[]]
  | a :: s' =>
      match skip with
      | S k => split_from sep k s'
      | O =>
          if startswith s sep
          then [] :: split_from sep (length sep - 1) s'
          else push_front a (split_from sep 0 s')
      end
  end.

Definition split (sep s : text) : list text := split_from sep 0 s.

(** [sep.join(ps)] *)
Fixpoint join (sep : text) (ps : list text) : text :=
  match ps with
  | [] => []
  | [p] => p
  | p :: ps' => p ++ sep ++ join sep ps'
  end.

(** [c.isspace()], which is also the class [\s] of [re] on [str]:
    TAB, LF, VT, FF, CR, the separators FS, GS, RS, US, the space,
    NEL and the no-break space. *)
Definition isspace (a : ascii) : bool :=
  let n := nat_of_ascii a in
  ((9 <=? n) && (n <=? 13)) || ((28 <=? n) && (n <=? 32)) ||
  (n =? 133) || (n =? 160).

(** [s.lstrip()] and [s.rstrip()] *)
Fixpoint lstrip (s : text) : text :=
  match s with
  | [] => []
  | a :: s' => if isspace a then lstrip s' else s
  end.

Definition rstrip (s : text) : text := rev (lstrip (rev s)).

(** [s.upper()] on the letters a-z; the other characters of the texts
    it is applied to here are left as they are. *)
Definition upper_char (a : ascii) : ascii :=
  let n := nat_of_ascii a in
  if (97 <=? n) && (n <=? 122) then ascii_of_nat (n - 32) else a.

Definition upper (s : text) : text := map upper_char s.

(** What a read in text mode makes of the characters of a file
    ([newline=None]): CR LF and CR alone become LF. *)
Fixpoint universal_newlines (s : text) : text :=
  match s with
  | [] => []
  | a :: s' =>
      if Ascii.eqb a CR then
        NL :: match s' with
              | b :: s'' =>
                  if Ascii.eqb b NL then universal_newlines s''
                  else universal_newlines s'
              | [] => []
              end
      else a :: universal_newlines s'
  end.

(** [s[:i]] and [s[i:]] for [0 <= i] *)
Definition slice_to (i : nat) (s : text) : text := firstn i s.
Definition slice_from (i : nat) (s : text) : text := skipn i s.
Definition slice (i j : nat) (s : text) : text := firstn (j - i) (skipn i s).

(** ** Regular expressions

    The two patterns of the script use literal text, [\s*], [.*?]
    (under [re.DOTALL]), [[^)]*?] and three capture groups.  A pattern
    is a list of such items; [exec] is the backtracking matcher of
    [re]: a greedy star tries the longest run first, a lazy star the
    shortest, and each gives way when the rest of the pattern fails. *)

Inductive item :=
  | Lit (l : text)                            (* literal text *)
  | Star (greedy : bool) (cls : ascii -> bool) (* [c*] or [c*?] over a class *)
  | Open (k : nat)                            (* "(" of group k *)
  | Close (k : nat).                          (* ")" of group k *)

Record caps := {
  opens : list (nat * nat);          (* group, position of its "(" *)
  closed : list (nat * (nat * nat))  (* group, its start and end *)
}.

Definition no_caps : caps := {| opens := []; closed := [] |}.

Fixpoint assoc {V : Type} (k : nat) (l : list (nat * V)) : option V :=
  match l with
  | [] => None
  | (k', v) :: l' => if Nat.eqb k k' then Some v else assoc k l'
  end.

Definition open_group (k pos : nat) (c : caps) : caps :=
  {| opens := (k, pos) :: opens c; closed := closed c |}.

Definition close_group (k pos : nat) (c : caps) : caps :=
  match assoc k (opens c) with
  | Some st => {| opens := opens c; closed := (k, (st, pos)) :: closed c |}
  | None => c
  end.

Section Star.
Context {R : Type}.
Variable cls : ascii -> bool.
(** The rest of the pattern, run on the remaining text at a position. *)
Variable rest : text -> nat -> option R.

Fixpoint star_greedy (s : text) (pos : nat) : option R :=
  match s with
  | a :: s' =>
      if cls a then
        match star_greedy s' (S pos) with
        | Some r => Some r
        | None => rest s pos
        end
      else rest s pos
  | [] => rest s pos
  end.

Fixpoint star_lazy (s : text) (pos : nat) : option R :=
  match rest s pos with
  | Some r => Some r
  | None =>
      match s with
      | a :: s' => if cls a then star_lazy s' (S pos) else None
      | [] => None
      end
  end.
End Star.

(** [exec p s pos c]: match [p] against [s], the text from position
    [pos] on; the result is the end position and the groups. *)
Fixpoint exec (p : list item) (s : text) (pos : nat) (c : caps)
  : option (nat * caps) :=
  match p with
  | [] => Some (pos, c)
  | Lit l :: p' =>
      if startswith s l
      then exec p' (skipn (length l) s) (pos + length l) c
      else None
  | Star true cls :: p' =>
      star_greedy cls (fun s' pos' => exec p' s' pos' c) s pos
  | Star false cls :: p' =>
      star_lazy cls (fun s' pos' => exec p' s' pos' c) s pos
  | Open k :: p' => exec p' s pos (open_group k pos c)
  | Close k :: p' => exec p' s pos (close_group k pos c)
  end.

(** A match object. *)
Record rmatch := {
  m_start : nat;
  m_end : nat;
  m_groups : list (nat * (nat * nat))
}.

(** [match.start(k)], [match.end(k)] and [match.group(k)].  Every group
    of the two patterns below takes part in every match, so the value
    that [re] gives for a group that did not take part does not arise. *)
Definition span (m : rmatch) (k : nat) : nat * nat :=
  match assoc k (m_groups m) with
  | Some sp => sp
  | None => (0, 0)
  end.
Definition mstart (m : rmatch) (k : nat) : nat := fst (span m k).
Definition mend (m : rmatch) (k : nat) : nat := snd (span m k).
Definition mgroup (content : text) (m : rmatch) (k : nat) : text :=
  slice (mstart m k) (mend m k) content.

(** [re.search]: the first position, from the left, at which the
    pattern matches. *)
Fixpoint search_from (p : list item) (s : text) (pos : nat) : option rmatch :=
  match exec p s pos no_caps with
  | Some (e, c) => Some {| m_start := pos; m_end := e; m_groups := closed c |}
  | None =>
      match s with
      | [] => None
      | _ :: s' => search_from p s' (S pos)
      end
  end.

Definition search (p : list item) (s : text) : option rmatch :=
  search_from p s 0.

Definition any_char (a : ascii) : bool := true.
Definition not_rparen (a : ascii) : bool := negb (Ascii.eqb a ")"%char).

(** ** The world of the script *)

Inductive event :=
  | Print (line : text)                   (* a line on standard output *)
  | ReadFile (path : string)              (* [open(path, 'r')], [read()] *)
  | WriteFile (path : string) (data : text). (* [open(path, 'w')], [write(data)] *)

Record world := {
  files : gmap string text;   (* the file system *)
  log : list event;           (* what happened, oldest first *)
  rand : nat -> nat;          (* the random source *)
  draws : nat                 (* how many draws were made *)
}.

Inductive exn :=
  | FileNotFoundError (path : string)
  | IndexError
  | KeyError (key : text)
  | SystemExit (code : nat).

Inductive outcome (A : Type) :=
  | Ret (a : A)
  | Raise (e : exn).
Arguments Ret {A} a.
Arguments Raise {A} e.

Definition M (A : Type) : Type := world -> outcome A * world.

Definition ret {A} (a : A) : M A := fun w => (Ret a, w).
Definition raise {A} (e : exn) : M A := fun w => (Raise e, w).
Definition bind {A B} (m : M A) (k : A -> M B) : M B :=
  fun w =>
    match m w with
    | (Ret a, w') => k a w'
    | (Raise e, w') => (Raise e, w')
    end.

Declare Scope script_scope.
Delimit Scope script_scope with script.
Notation "x <- m ;; k" := (bind m (fun x => k))
  (at level 100, m at next level, k at level 200, right associativity)
  : script_scope.
Notation "m ;; k" := (bind m (fun _ => k))
  (at level 100, k at level 200, right associativity) : script_scope.
Local Open Scope script_scope.

Definition emit (e : event) (w : world) : world :=
  {| files := files w; log := log w ++ [e]; rand := rand w; draws := draws w |}.

(** [print(line)] *)
Definition print (line : text) : M unit :=
  fun w => (Ret tt, emit (Print line) w).

(** [with open(path, 'r') as f: f.read()]: the characters of the file,
    with the line ends as a read in text mode gives them. *)
Definition read_file (path : string) : M text :=
  fun w =>
    match files w !! path with
    | Some data => (Ret (universal_newlines data), emit (ReadFile path) w)
    | None => (Raise (FileNotFoundError path), w)
    end.

(** [with open(path, 'w') as f: f.write(data)]: the file is created or
    truncated, and holds [data]. *)
Definition write_file (path : string) (data : text) : M unit :=
  fun w =>
    (Ret tt,
     emit (WriteFile path data)
       {| files := <[path := data]> (files w); log := log w;
          rand := rand w; draws := draws w |}).

(** [random._randbelow(n)] for [0 < n] *)
Definition randbelow (n : nat) : M nat :=
  fun w =>
    (Ret (rand w (draws w) mod n),
     {| files := files w; log := log w; rand := rand w; draws := S (draws w) |}).

(** [random.choice(seq)] *)
Definition choice (seq : text) : M ascii :=
  match seq with
  | [] => raise IndexError
  | d :: _ => i <- randbelow (length seq) ;; ret (nth i seq d)
  end.

(** ** The script *)

(** [string.hexdigits] *)
Definition hexdigits : text := txt "0123456789abcdefABCDEF".

(** [GROUP_IDS]: group IDs from the project file, in the order of the
    dictionary. *)
Definition GROUP_IDS : list (text * text) :=
  [ (txt "Models", txt "228C21072ED56D9100F0ACD5");
    (txt "Views", txt "228C21172ED56D9100F0ACD5");
    (txt "ViewModels", txt "228C21112ED56D9100F0ACD5");
    (txt "Services", txt "228C210D2ED56D9100F0ACD5");
    (txt "Components", txt "228C21142ED56D9100F0ACD5") ].

(** [a == b] on strings *)
Fixpoint text_eqb (a b : text) : bool :=
  match a, b with
  | [], [] => true
  | x :: a', y :: b' => Ascii.eqb x y && text_eqb a' b'
  | _, _ => false
  end.

(** [d.get(key)] on an insertion-ordered dictionary *)
Fixpoint dict_get (key : text) (d : list (text * text)) : option text :=
  match d with
  | [] => None
  | (k, v) :: d' => if text_eqb key k then Some v else dict_get key d'
  end.

(** [key in d] *)
Definition dict_mem (key : text) (d : list (text * text)) : bool :=
  match dict_get key d with Some _ => true | None => false end.

(** [d.keys()] *)
Definition dict_keys (d : list (text * text)) : list text := map fst d.

(** [''.join(random.choice(chars) for _ in range(n))] *)
Fixpoint choices (chars : text) (n : nat) : M text :=
  match n with
  | O => ret []
  | S k => c <- choice chars ;; cs <- choices chars k ;; ret (c :: cs)
  end.

(** [generate_id()]: generate a unique 24-character hex ID. *)
Definition generate_id : M text :=
  let chars := slice_to 16 (upper hexdigits) in
  choices chars 24.

(** The module docstring, [__doc__]. *)
Definition __doc__ : text :=
  [NL] ++ txt "Add Swift files to the Flipix Xcode project." ++ [NL; NL] ++
  txt "Usage: python3 add_swift_file.py <filename> <group>" ++ [NL; NL] ++
  txt "Groups: Models, Views, ViewModels, Services, Components" ++ [NL; NL] ++
  txt "Example: python3 add_swift_file.py MyNewView.swift Views" ++ [NL].

Definition FILEREF_END : text := txt "/* End PBXFileReference section */".
Definition BUILDFILE_END : text := txt "/* End PBXBuildFile section */".

(** The f-string of line 67. *)
Definition fileref_entry (fileref_id filename : text) : text :=
  [TAB; TAB] ++ fileref_id ++ txt " /* " ++ filename ++
  txt " */ = {isa = PBXFileReference; lastKnownFileType = sourcecode.swift; path = " ++
  filename ++ txt "; sourceTree = " ++ [DQUOTE] ++ txt "<group>" ++ [DQUOTE] ++
  txt "; };" ++ [NL].

(** The f-string of line 74. *)
Definition buildfile_entry (buildfile_id fileref_id filename : text) : text :=
  [TAB; TAB] ++ buildfile_id ++ txt " /* " ++ filename ++
  txt " in Sources */ = {isa = PBXBuildFile; fileRef = " ++ fileref_id ++
  txt " /* " ++ filename ++ txt " */; };" ++ [NL].

(** The pattern of line 83,
    [(ID /\* GROUP \*/ = \{\s*isa = PBXGroup;\s*children = \()([^)]*?)(\);)],
    with the identifier and the name of the group in place.  Both are
    letters and digits only ([GROUP_IDS_plain] below), so they stand
    for themselves in the pattern. *)
Definition group_pattern (group_id group : text) : list item :=
  [ Open 1;
    Lit (group_id ++ txt " /* " ++ group ++ txt " */ = {");
    Star true isspace;
    Lit (txt "isa = PBXGroup;");
    Star true isspace;
    Lit (txt "children = (");
    Close 1;
    Open 2; Star false not_rparen; Close 2;
    Open 3; Lit (txt ");"); Close 3 ].

(** The pattern of line 93, searched under [re.DOTALL]:
    [(0B1A00271A2A3A4A5A6A7A8A /\* Sources \*/ = \{\s*isa = PBXSourcesBuildPhase;.*?files = \()([^)]*?)(\);)] *)
Definition sources_pattern : list item :=
  [ Open 1;
    Lit (txt "0B1A00271A2A3A4A5A6A7A8A /* Sources */ = {");
    Star true isspace;
    Lit (txt "isa = PBXSourcesBuildPhase;");
    Star false any_char;
    Lit (txt "files = (");
    Close 1;
    Open 2; Star false not_rparen; Close 2;
    Open 3; Lit (txt ");"); Close 3 ].

(** Lines 66-71: 1. Add PBXFileReference *)
Definition add_fileref (fileref_id filename content : text) : text :=
  replace FILEREF_END (fileref_entry fileref_id filename ++ FILEREF_END) content.

(** Lines 73-78: 2. Add PBXBuildFile *)
Definition add_buildfile (buildfile_id fileref_id filename content : text) : text :=
  replace BUILDFILE_END
    (buildfile_entry buildfile_id fileref_id filename ++ BUILDFILE_END) content.

(** The line added to the children of the group (line 88). *)
Definition child_line (fileref_id filename : text) : text :=
  [NL; TAB; TAB; TAB; TAB] ++ fileref_id ++ txt " /* " ++ filename ++ txt " */,".

(** The line added to the files of the build phase (line 98). *)
Definition source_line (buildfile_id filename : text) : text :=
  [NL; TAB; TAB; TAB; TAB] ++ buildfile_id ++ txt " /* " ++ filename ++
  txt " in Sources */,".

(** Lines 86-89 and 96-99: the text of group 2, stripped on the right,
    gets the new line; three tabs precede what followed the group. *)
Definition append_to_group2 (m : rmatch) (line content : text) : text :=
  let children := rstrip (mgroup content m 2) in
  let new_children := children ++ line in
  slice_to (mstart m 2) content ++ new_children ++ [NL; TAB; TAB; TAB] ++
  slice_from (mend m 2) content.

(** Lines 80-89: 3. Add to group *)
Definition add_to_group (group_id group fileref_id filename content : text) : text :=
  match search (group_pattern group_id group) content with
  | Some m => append_to_group2 m (child_line fileref_id filename) content
  | None => content
  end.

(** Lines 91-99: 4. Add to Sources build phase *)
Definition add_to_sources (buildfile_id filename content : text) : text :=
  match search sources_pattern content with
  | Some m => append_to_group2 m (source_line buildfile_id filename) content
  | None => content
  end.

(** [sys.exit(code)] *)
Definition sys_exit {A} (code : nat) : M A := raise (SystemExit code).

Section Script.

(** The path of the manifest, [PBXPROJ]: it is computed from the place
    of the script and is the same for the whole run. *)
Variable PBXPROJ : string.

Definition backup_path : string := (PBXPROJ +:+ ".backup")%string.

Definition add_file_to_project (filename group : text) : M bool :=
  if negb (dict_mem group GROUP_IDS) then
    print (txt "Error: Unknown group '" ++ group ++ txt "'") ;;
    print (txt "Valid groups: " ++ join (txt ", ") (dict_keys GROUP_IDS)) ;;
    ret false
  else
    (* Generate unique IDs *)
    fileref_id <- generate_id ;;
    buildfile_id <- generate_id ;;
    print (txt "Adding " ++ filename ++ txt " to " ++ group ++ txt "...") ;;
    print (txt "FileRef ID: " ++ fileref_id) ;;
    print (txt "BuildFile ID: " ++ buildfile_id) ;;
    (* Read current project file *)
    content <- read_file PBXPROJ ;;
    (* Check if file already exists *)
    if contains (txt "path = " ++ filename ++ txt ";") content then
      print (txt "Error: " ++ filename ++ txt " already exists in project!") ;;
      ret false
    else
      (* Create backup *)
      write_file backup_path content ;;
      print (txt "Backup saved to: " ++ txt backup_path) ;;
      let content := add_fileref fileref_id filename content in
      let content := add_buildfile buildfile_id fileref_id filename content in
      match dict_get group GROUP_IDS with
      | None => raise (KeyError group)
      | Some group_id =>
          let content := add_to_group group_id group fileref_id filename content in
          let content := add_to_sources buildfile_id filename content in
          (* Write updated content *)
          write_file PBXPROJ content ;;
          print (txt "Successfully added " ++ filename ++ txt " to " ++ group ++ txt "!") ;;
          ret true
      end.

(** [main()], on [sys.argv] *)
Definition main (argv : list text) : M unit :=
  if length argv <? 3 then
    print __doc__ ;;
    sys_exit 1
  else
    let filename := nth 1 argv [] in
    let group := nth 2 argv [] in
    (if negb (endswith filename (txt ".swift"))
     then print (txt "Warning: File doesn't have .swift extension")
     else ret tt) ;;
    success <- add_file_to_project filename group ;;
    sys_exit (if success then 0 else 1).

End Script.

(** The exit status of the process that ran [main()]: the code of
    [sys.exit], 1 for another exception that was not caught, 0 when
    [main] returns. *)
Definition exit_status {A} (o : outcome A) : nat :=
  match o with
  | Ret _ => 0
  | Raise (SystemExit code) => code
  | Raise _ => 1
  end.

(** A world for examples. *)
Definition world0 (fs : gmap string text) (r : nat -> nat) : world :=
  {| files := fs; log := []; rand := r; draws := 0 |}.

(** ** What a run computes, in closed form *)

(** The alphabet of [generate_id]: [string.hexdigits.upper()[:16]]. *)
Definition hex_chars : text := slice_to 16 (upper hexdigits).

(** The text that a read of [path] returns, when the file exists. *)
Definition read_text (w : world) (path : string) : option text :=
  option_map universal_newlines (files w !! path).

(** The world after [n] more draws. *)
Definition skip_draws (n : nat) (w : world) : world :=
  {| files := files w; log := log w; rand := rand w; draws := draws w + n |}.

(** The identifier that [generate_id] builds from the draws [d], [d+1],
    ..., [d+23] of the source [r]. *)
Definition id_from (r : nat -> nat) (d : nat) : text :=
  map (fun i => nth (r (d + i) mod 16) hex_chars "0"%char) (seq 0 24).

(** The four insertions of lines 66-99, in their order. *)
Definition edited (group_id group fileref_id buildfile_id filename content : text)
  : text :=
  add_to_sources buildfile_id filename
    (add_to_group group_id group fileref_id filename
       (add_buildfile buildfile_id fileref_id filename
          (add_fileref fileref_id filename content))).

(** The lines that are printed before the manifest is read. *)
Definition announce (filename group fileref_id buildfile_id : text) : list event :=
  [ Print (txt "Adding " ++ filename ++ txt " to " ++ group ++ txt "...");
    Print (txt "FileRef ID: " ++ fileref_id);
    Print (txt "BuildFile ID: " ++ buildfile_id) ].

(** The substring that the check of line 56 looks for. *)
Definition path_key (filename : text) : text :=
  txt "path = " ++ filename ++ txt ";".

Definition is_write (e : event) : bool :=
  match e with WriteFile _ _ => true | _ => false end.

Definition is_file_access (e : event) : bool :=
  match e with Print _ => false | _ => true end.

(** The five names of the groups. *)
Definition group_names : list text :=
  [txt "Models"; txt "Views"; txt "ViewModels"; txt "Services"; txt "Components"].

(** Letters and digits. *)
Definition isalnum (a : ascii) : bool :=
  let n := nat_of_ascii a in
  ((48 <=? n) && (n <=? 57)) || ((65 <=? n) && (n <=? 90)) ||
  ((97 <=? n) && (n <=? 122)).

(** The shape that the two patterns share: a declaration, matched by
    group 1, that ends with the "(" of a list; the list up to its first
    ")", matched by group 2; and ");", matched by group 3. *)
Definition list_pattern (decl : text) (cls1 : ascii -> bool) (isa : text)
    (greedy2 : bool) (cls2 : ascii -> bool) (opening : text) : list item :=
  [ Open 1; Lit decl; Star true cls1; Lit isa; Star greedy2 cls2; Lit opening;
    Close 1;
    Open 2; Star false not_rparen; Close 2;
    Open 3; Lit (txt ");"); Close 3 ].

(** The declaration of a group, as the pattern of line 83 spells it. *)
Definition group_decl (group_id group : text) : text :=
  group_id ++ txt " /* " ++ group ++ txt " */ = {".

(** The declaration of the Sources build phase, as in line 93. *)
Definition sources_decl : text :=
  txt "0B1A00271A2A3A4A5A6A7A8A /* Sources */ = {".

(** The white space before the ")" of a list in the manifest. *)
Definition list_end_indent : text := [NL; TAB; TAB; TAB].

(** ** A small manifest, for examples *)

Definition unlines (ls : list text) : text := flat_map (fun l => l ++ [NL]) ls.

Definition sample_manifest : text := unlines
  [ txt "/* Begin PBXBuildFile section */";
    [TAB; TAB] ++ txt "AA /* A.swift in Sources */ = {isa = PBXBuildFile; fileRef = BB /* A.swift */; };";
    txt "/* End PBXBuildFile section */";
    txt "/* Begin PBXFileReference section */";
    [TAB; TAB] ++ txt "BB /* A.swift */ = {isa = PBXFileReference; path = A.swift; };";
    txt "/* End PBXFileReference section */";
    [TAB; TAB] ++ txt "228C21072ED56D9100F0ACD5 /* Models */ = {";
    [TAB; TAB; TAB] ++ txt "isa = PBXGroup;";
    [TAB; TAB; TAB] ++ txt "children = (";
    [TAB; TAB; TAB] ++ txt ");";
    [TAB; TAB] ++ txt "};";
    [TAB; TAB] ++ txt "0B1A00271A2A3A4A5A6A7A8A /* Sources */ = {";
    [TAB; TAB; TAB] ++ txt "isa = PBXSourcesBuildPhase;";
    [TAB; TAB; TAB] ++ txt "buildActionMask = 2147483647;";
    [TAB; TAB; TAB] ++ txt "files = (";
    [TAB; TAB; TAB; TAB] ++ txt "AA /* A.swift in Sources */,";
    [TAB; TAB; TAB] ++ txt ");";
    [TAB; TAB] ++ txt "};" ].

Definition sample_path : string := "Flipix.xcodeproj/project.pbxproj".

(** A world whose file system holds [content] at [sample_path], and
    whose random source yields 0, 1, 2, ... *)
Definition sample_world (content : text) : world :=
  world0 {[ sample_path := content ]} (fun n => n).

(** ** Measures of a text *)

(** The characters of a text that are not white space, in their order. *)
Definition nonspace (s : text) : text :=
  List.filter (fun a => negb (isspace a)) s.

(** How many times the character [c] is in [s]. *)
Definition occurrences (c : ascii) (s : text) : nat :=
  length (List.filter (Ascii.eqb c) s).

(** * Properties *)

Arguments txt : simpl never.

(** ** Text *)

Lemma startswith_app (p r : text) : startswith (p ++ r) p = true.
Proof. induction p as [|b p IH]; simpl; [done|]. by rewrite Ascii.eqb_refl. Qed.

Lemma startswith_inv (s p : text) :
  startswith s p = true -> exists r, s = p ++ r.
Proof.
  revert s. induction p as [|b p IH]; intros s H.
  - by exists s.
  - destruct s as [|a s]; simpl in H; [done|].
    destruct (Ascii.eqb a b) eqn:E; [|done].
    apply Ascii.eqb_eq in E as ->.
    destruct (IH _ H) as [r ->]. by exists r.
Qed.


Lemma contains_startswith (n h : text) :
  startswith h n = true -> contains n h = true.
Proof. intros H. destruct h; simpl; rewrite H; done. Qed.

Lemma contains_iff (n h : text) :
  contains n h = true <-> exists l r, h = l ++ n ++ r.
Proof.
  split.
  - induction h as [|a h IH]; simpl; rewrite orb_true_iff; intros [H|H].
    + apply startswith_inv in H as [r ->]. by exists [], r.
    + done.
    + apply startswith_inv in H as [r ->]. by exists [], r.
    + destruct (IH H) as (l & r & ->). by exists (a :: l), r.
  - intros (l & r & ->). induction l as [|a l IH]; simpl.
    + apply contains_startswith, startswith_app.
    + rewrite IH. apply orb_true_r.
Qed.

Lemma text_eqb_eq (a b : text) : text_eqb a b = true <-> a = b.
Proof.
  revert b. induction a as [|x a IH]; intros [|y b]; simpl; try done.
  rewrite andb_true_iff, Ascii.eqb_eq, IH. split; [by intros [-> ->]|]. by inversion 1.
Qed.

(** ** The dictionary of groups *)

Lemma dict_get_keys (key : text) (d : list (text * text)) :
  is_Some (dict_get key d) <-> In key (dict_keys d).
Proof.
  induction d as [|[k v] d IH]; simpl.
  - split; [by intros [? ?] | done].
  - destruct (text_eqb key k) eqn:E.
    + apply text_eqb_eq in E as ->. split; [by left | by eexists].
    + rewrite IH. split; [by right|]. intros [<- | H]; [|done].
      by rewrite (proj2 (text_eqb_eq _ _) eq_refl) in E.
Qed.

Lemma dict_mem_GROUP_IDS (group : text) :
  dict_mem group GROUP_IDS = true <-> In group group_names.
Proof.
  change group_names with (dict_keys GROUP_IDS).
  rewrite <- dict_get_keys. unfold dict_mem.
  destruct (dict_get group GROUP_IDS); split; try done; eauto; by intros [? ?].
Qed.

Lemma dict_mem_get (group : text) :
  dict_mem group GROUP_IDS = true -> exists gid, dict_get group GROUP_IDS = Some gid.
Proof. unfold dict_mem. destruct (dict_get group GROUP_IDS); [eauto | done]. Qed.

(** The names and the identifiers of the groups are letters and digits:
    put into the pattern of line 83 they stand for themselves. *)
Lemma GROUP_IDS_plain :
  Forall (fun kv => forallb isalnum (fst kv) = true /\ forallb isalnum (snd kv) = true)
         GROUP_IDS.
Proof. repeat constructor. Qed.

(** ** Identifiers *)

Lemma hex_chars_eq : hex_chars = txt "0123456789ABCDEF".
Proof. reflexivity. Qed.

Lemma choices_run (chars : text) (d : ascii) (n : nat) (w : world) :
  hd_error chars = Some d ->
  choices chars n w =
    (Ret (map (fun i => nth (rand w (draws w + i) mod length chars) chars d) (seq 0 n)),
     skip_draws n w).
Proof.
  intros Hd. destruct chars as [|d' tl]; [done|]. injection Hd as ->.
  revert w. induction n as [|n IH]; intros w.
  - unfold skip_draws. simpl. rewrite Nat.add_0_r. by destruct w.
  - cbn [choices]. unfold bind at 1. unfold choice, bind at 1, randbelow, ret.
    unfold bind. rewrite IH. cbn [draws rand files log skip_draws].
    cbn [seq map]. rewrite <- seq_shift, map_map, Nat.add_0_r.
    f_equal; [f_equal; f_equal|].
    + apply map_ext. intros i. by rewrite Nat.add_succ_r.
    + unfold skip_draws. cbn. f_equal. lia.
Qed.

Lemma generate_id_run (w : world) :
  generate_id w = (Ret (id_from (rand w) (draws w)), skip_draws 24 w).
Proof.
  unfold generate_id. fold hex_chars.
  by rewrite (choices_run hex_chars "0"%char 24 w eq_refl).
Qed.

(** ** Runs of [add_file_to_project] *)

Lemma read_text_Some (w : world) (path : string) (content : text) :
  read_text w path = Some content ->
  exists stored, files w !! path = Some stored /\
                 universal_newlines stored = content.
Proof.
  unfold read_text. destruct (files w !! path) as [stored|]; [|done].
  intros [= <-]. by exists stored.
Qed.

Lemma read_text_None (w : world) (path : string) :
  read_text w path = None <-> files w !! path = None.
Proof. unfold read_text. by destruct (files w !! path). Qed.

Lemma read_text_stored (w : world) (path : string) (stored : text) :
  files w !! path = Some stored ->
  read_text w path = Some (universal_newlines stored).
Proof. unfold read_text. by intros ->. Qed.

(** A text without CR is read as it is. *)
Lemma universal_newlines_id (s : text) :
  ~ In CR s -> universal_newlines s = s.
Proof.
  induction s as [|a s IH]; [done|]. intros H. cbn [universal_newlines].
  destruct (Ascii.eqb_spec a CR) as [->|_].
  - destruct H. by left.
  - rewrite IH; [done|]. intros ?. apply H. by right.
Qed.

Lemma universal_newlines_app_l (n r : text) :
  ~ In CR n -> universal_newlines (n ++ r) = n ++ universal_newlines r.
Proof.
  induction n as [|a n IH]; [done|]. intros H.
  cbn [app universal_newlines].
  destruct (Ascii.eqb_spec a CR) as [->|_].
  - destruct H. by left.
  - rewrite IH; [done|]. intros ?. apply H. by right.
Qed.

(** A read translates what stands before a text that does not begin
    with LF without looking at that text. *)
Lemma universal_newlines_app (l t : text) :
  hd_error t <> Some NL ->
  universal_newlines (l ++ t) = universal_newlines l ++ universal_newlines t.
Proof.
  intros Ht. remember (length l) as k eqn:Hk. revert l Hk.
  induction k as [k IH] using lt_wf_ind. intros l ->.
  destruct l as [|a l]; [done|].
  cbn [app universal_newlines]. destruct (Ascii.eqb a CR).
  - destruct l as [|b l].
    + cbn [app]. destruct t as [|b t]; [done|].
      destruct (Ascii.eqb_spec b NL) as [->|_]; [by destruct Ht|done].
    + cbn [app]. destruct (Ascii.eqb b NL).
      * cbn [app]. f_equal. exact (IH (length l) ltac:(cbn; lia) l eq_refl).
      * cbn [app]. f_equal.
        exact (IH (length (b :: l)) ltac:(cbn; lia) (b :: l) eq_refl).
  - cbn [app]. f_equal. exact (IH (length l) ltac:(cbn; lia) l eq_refl).
Qed.

(** A text without CR that does not begin with LF and stands in a file
    stands in the text read from it. *)
Lemma contains_universal_newlines (n s : text) :
  ~ In CR n -> hd_error n <> Some NL ->
  contains n s = true -> contains n (universal_newlines s) = true.
Proof.
  intros Hcr Hhd Hc. apply contains_iff. destruct n as [|a n].
  - by exists [], (universal_newlines s).
  - apply contains_iff in Hc as (l & r & ->).
    exists (universal_newlines l), (universal_newlines r).
    rewrite universal_newlines_app by (cbn [app hd_error]; exact Hhd).
    by rewrite (universal_newlines_app_l (a :: n) r Hcr).
Qed.

Lemma string_length_append (a b : string) :
  String.length (a +:+ b) = String.length a + String.length b.
Proof.
  induction a as [|c a IH]; [done|].
  change (S (String.length (a +:+ b)) = S (String.length a + String.length b)).
  by rewrite IH.
Qed.

Section Runs.

Variable PBXPROJ : string.

Lemma backup_path_ne : backup_path PBXPROJ <> PBXPROJ.
Proof.
  unfold backup_path. intros H.
  apply (f_equal String.length) in H.
  rewrite string_length_append in H. simpl in H. lia.
Qed.

Ltac run_script :=
  unfold add_file_to_project, bind, print, read_file, write_file, ret, raise, emit;
  cbn [files log rand draws negb].

Lemma run_unknown_group (filename group : text) (w : world) :
  dict_mem group GROUP_IDS = false ->
  add_file_to_project PBXPROJ filename group w =
    (Ret false,
     {| files := files w;
        log := log w ++
          [ Print (txt "Error: Unknown group '" ++ group ++ txt "'");
            Print (txt "Valid groups: " ++ join (txt ", ") (dict_keys GROUP_IDS)) ];
        rand := rand w; draws := draws w |}).
Proof.
  intros Hg. run_script. rewrite Hg. cbn [negb files log rand draws].
  by rewrite <- app_assoc.
Qed.

Lemma run_missing (filename group : text) (w : world) :
  dict_mem group GROUP_IDS = true ->
  files w !! PBXPROJ = None ->
  add_file_to_project PBXPROJ filename group w =
    (Raise (FileNotFoundError PBXPROJ),
     {| files := files w;
        log := log w ++
          announce filename group (id_from (rand w) (draws w))
            (id_from (rand w) (draws w + 24));
        rand := rand w; draws := draws w + 48 |}).
Proof.
  intros Hg Hf. run_script. rewrite Hg. cbn [negb].
  rewrite !generate_id_run. cbn [skip_draws files log rand draws].
  rewrite Hf. rewrite <- !app_assoc. cbn [app].
  do 2 f_equal. lia.
Qed.

Lemma run_duplicate (filename group content : text) (w : world) :
  dict_mem group GROUP_IDS = true ->
  read_text w PBXPROJ = Some content ->
  contains (path_key filename) content = true ->
  add_file_to_project PBXPROJ filename group w =
    (Ret false,
     {| files := files w;
        log := log w ++
          announce filename group (id_from (rand w) (draws w))
            (id_from (rand w) (draws w + 24)) ++
          [ ReadFile PBXPROJ;
            Print (txt "Error: " ++ filename ++ txt " already exists in project!") ];
        rand := rand w; draws := draws w + 48 |}).
Proof.
  intros Hg Hf Hc. destruct (read_text_Some _ _ _ Hf) as (stored & Hs & <-).
  run_script. rewrite Hg. cbn [negb].
  rewrite !generate_id_run. cbn [skip_draws files log rand draws].
  rewrite Hs. fold (path_key filename). rewrite Hc.
  cbn [files log rand draws]. rewrite <- !app_assoc. cbn [app].
  do 2 f_equal. lia.
Qed.

Lemma run_success (filename group group_id content : text) (w : world) :
  dict_get group GROUP_IDS = Some group_id ->
  read_text w PBXPROJ = Some content ->
  contains (path_key filename) content = false ->
  let fileref_id := id_from (rand w) (draws w) in
  let buildfile_id := id_from (rand w) (draws w + 24) in
  add_file_to_project PBXPROJ filename group w =
    (Ret true,
     {| files :=
          <[PBXPROJ := edited group_id group fileref_id buildfile_id filename content]>
            (<[backup_path PBXPROJ := content]> (files w));
        log := log w ++
          announce filename group fileref_id buildfile_id ++
          [ ReadFile PBXPROJ;
            WriteFile (backup_path PBXPROJ) content;
            Print (txt "Backup saved to: " ++ txt (backup_path PBXPROJ));
            WriteFile PBXPROJ
              (edited group_id group fileref_id buildfile_id filename content);
            Print (txt "Successfully added " ++ filename ++ txt " to " ++ group ++
                   txt "!") ];
        rand := rand w; draws := draws w + 48 |}).
Proof.
  intros Hg Hf Hc fileref_id buildfile_id.
  destruct (read_text_Some _ _ _ Hf) as (stored & Hs & <-). run_script.
  unfold dict_mem. rewrite Hg. cbn [negb].
  rewrite !generate_id_run. cbn [skip_draws files log rand draws].
  rewrite Hs. fold (path_key filename). rewrite Hc.
  cbn [files log rand draws]. rewrite <- !app_assoc. cbn [app].
  unfold edited. do 2 f_equal. lia.
Qed.

End Runs.

Section MainRuns.

Variable PBXPROJ : string.

(** [main] on a command line with a file name and a group. *)
Lemma main_run (prog filename group : text) (rest : list text) (w : world) :
  main PBXPROJ (prog :: filename :: group :: rest) w =
    let w1 :=
      if endswith filename (txt ".swift") then w
      else emit (Print (txt "Warning: File doesn't have .swift extension")) w in
    match add_file_to_project PBXPROJ filename group w1 with
    | (Ret success, w2) => (Raise (SystemExit (if success then 0 else 1)), w2)
    | (Raise e, w2) => (Raise e, w2)
    end.
Proof.
  unfold main. cbn [length Nat.ltb Nat.leb nth].
  destruct (endswith filename (txt ".swift")); cbn [negb];
    unfold bind at 1; unfold ret, print, bind, sys_exit, raise; cbn zeta;
    by destruct (add_file_to_project _ _ _ _) as [[b|e] w2].
Qed.

End MainRuns.

(** ** The validation gates *)

Lemma valid_groups_line :
  txt "Valid groups: " ++ join (txt ", ") (dict_keys GROUP_IDS) =
  txt "Valid groups: Models, Views, ViewModels, Services, Components".
Proof. reflexivity. Qed.

(** C3.  When the group is not one of Models, Views, ViewModels,
    Services, Components, [add_file_to_project] prints the error and
    the list of the valid groups and returns [False]; the process ends
    with status 1; no file is read or written, so the manifest is what
    it was. *)
Theorem unknown_group_fails
    (PBXPROJ : string) (prog filename group : text) (rest : list text)
    (w : world) :
  ~ In group group_names ->
  let r := add_file_to_project PBXPROJ filename group w in
  let p := main PBXPROJ (prog :: filename :: group :: rest) w in
  fst r = Ret false /\
  files (snd r) = files w /\
  log (snd r) = log w ++
    [ Print (txt "Error: Unknown group '" ++ group ++ txt "'");
      Print (txt "Valid groups: Models, Views, ViewModels, Services, Components") ] /\
  exit_status (fst p) = 1 /\
  files (snd p) = files w /\
  exists evs, log (snd p) = log w ++ evs /\ existsb is_file_access evs = false.
Proof.
  intros Hg r p.
  assert (Hm : dict_mem group GROUP_IDS = false).
  { destruct (dict_mem group GROUP_IDS) eqn:E; [|done].
    by apply dict_mem_GROUP_IDS in E. }
  subst r p. rewrite main_run. cbn zeta.
  rewrite !(run_unknown_group _ _ _ _ Hm). cbn [fst snd files log].
  rewrite valid_groups_line.
  destruct (endswith filename (txt ".swift"));
    cbn [fst snd files log exit_status emit]; repeat split.
  - by eexists.
  - rewrite <- app_assoc. by eexists.
Qed.

Lemma unknown_group_fails_witness :
  ~ In (txt "Utilities") group_names /\
  exit_status (fst (main sample_path [txt "add_swift_file.py"; txt "Foo.swift"; txt "Utilities"]
                      (sample_world sample_manifest))) = 1 /\
  files (snd (main sample_path [txt "add_swift_file.py"; txt "Foo.swift"; txt "Utilities"]
                (sample_world sample_manifest))) = files (sample_world sample_manifest).
Proof.
  assert (H : ~ In (txt "Utilities") group_names).
  { rewrite <- dict_mem_GROUP_IDS. vm_compute. discriminate. }
  split; [exact H|].
  pose proof (unknown_group_fails sample_path (txt "add_swift_file.py")
                (txt "Foo.swift") (txt "Utilities") [] (sample_world sample_manifest) H)
    as (_ & _ & _ & He & Hf & _).
  split; [exact He | exact Hf].
Defined.

(** C4.  When the text of the manifest contains [path = <filename>;],
    [add_file_to_project] returns [False] and the process ends with
    status 1; neither the manifest nor the backup is written.  The
    check is a search for that substring: it holds exactly when the
    text is some [l ++ "path = " ++ filename ++ ";" ++ r]; and when it
    does not hold, and the group is known, the call goes on and
    returns [True]. *)
Theorem duplicate_path_fails
    (PBXPROJ : string) (prog filename group content : text) (rest : list text)
    (w : world) :
  read_text w PBXPROJ = Some content ->
  contains (txt "path = " ++ filename ++ txt ";") content = true ->
  let r := add_file_to_project PBXPROJ filename group w in
  let p := main PBXPROJ (prog :: filename :: group :: rest) w in
  fst r = Ret false /\
  files (snd r) = files w /\
  (exists evs, log (snd r) = log w ++ evs /\ existsb is_write evs = false) /\
  exit_status (fst p) = 1 /\
  files (snd p) = files w /\
  (exists l r', content = l ++ txt "path = " ++ filename ++ txt ";" ++ r') /\
  (forall content' : text,
      (contains (txt "path = " ++ filename ++ txt ";") content' = true <->
       exists l r', content' = l ++ txt "path = " ++ filename ++ txt ";" ++ r') /\
      (dict_mem group GROUP_IDS = true ->
       forall w' : world, read_text w' PBXPROJ = Some content' ->
       contains (txt "path = " ++ filename ++ txt ";") content' = false ->
       fst (add_file_to_project PBXPROJ filename group w') = Ret true)).
Proof.
  intros Hf Hc r p.
  assert (Hsub : forall c : text,
     contains (txt "path = " ++ filename ++ txt ";") c = true <->
     exists l r', c = l ++ txt "path = " ++ filename ++ txt ";" ++ r').
  { intros c. rewrite contains_iff. split; intros (l & r' & ->); exists l, r';
      by rewrite <- ?app_assoc. }
  assert (Hr : fst r = Ret false /\ files (snd r) = files w /\
     exists evs, log (snd r) = log w ++ evs /\ existsb is_write evs = false).
  { subst r. destruct (dict_mem group GROUP_IDS) eqn:Hg.
    - rewrite (run_duplicate _ _ _ _ _ Hg Hf Hc). cbn [fst snd files log].
      repeat split. by eexists.
    - rewrite (run_unknown_group _ _ _ _ Hg). cbn [fst snd files log].
      repeat split. by eexists. }
  assert (Hp : exit_status (fst p) = 1 /\ files (snd p) = files w).
  { subst p. rewrite main_run. cbn zeta.
    set (w1 := if endswith _ _ then w else _).
    assert (Hf1 : read_text w1 PBXPROJ = Some content) by (subst w1; by destruct (endswith _ _)).
    assert (Hw1 : files w1 = files w) by (subst w1; by destruct (endswith _ _)).
    destruct (dict_mem group GROUP_IDS) eqn:Hg.
    - by rewrite (run_duplicate _ _ _ _ _ Hg Hf1 Hc).
    - by rewrite (run_unknown_group _ _ _ _ Hg). }
  destruct Hr as (? & ? & ?), Hp as (? & ?).
  repeat split; try done.
  - by apply Hsub.
  - by apply Hsub.
  - by apply Hsub.
  - intros Hg w' Hf' Hc'. destruct (dict_mem_get _ Hg) as [gid Hgid].
    by rewrite (run_success _ _ _ _ _ _ Hgid Hf' Hc').
Qed.

Lemma duplicate_path_fails_witness :
  let w := sample_world sample_manifest in
  let argv := [txt "add_swift_file.py"; txt "A.swift"; txt "Models"] in
  read_text w sample_path = Some sample_manifest /\
  contains (txt "path = " ++ txt "A.swift" ++ txt ";") sample_manifest = true /\
  fst (add_file_to_project sample_path (txt "A.swift") (txt "Models") w) = Ret false /\
  exit_status (fst (main sample_path argv w)) = 1 /\
  files (snd (main sample_path argv w)) = files w.
Proof.
  intros w argv.
  assert (Hf : read_text w sample_path = Some sample_manifest) by (vm_compute; reflexivity).
  assert (Hc : contains (txt "path = " ++ txt "A.swift" ++ txt ";") sample_manifest = true)
    by (vm_compute; reflexivity).
  pose proof (duplicate_path_fails sample_path (txt "add_swift_file.py")
                (txt "A.swift") (txt "Models") sample_manifest [] w Hf Hc)
    as (Hr & _ & _ & He & Hfs & _).
  repeat split; assumption.
Defined.

(** C5.  A call that passes both gates (the group is known, the path
    is not in the text read) writes the text it read to
    [PBXPROJ + '.backup'], and does so before it writes the manifest:
    these are the only two writes, in that order.  After the call the
    backup holds the text read from the manifest, whatever that path
    held before: the characters the manifest held before the call with
    every CR LF and every other CR turned into LF, which are those
    characters themselves when there is no CR among them. *)
Theorem backup_before_write
    (PBXPROJ : string) (filename group stored : text) (w : world) :
  dict_mem group GROUP_IDS = true ->
  files w !! PBXPROJ = Some stored ->
  contains (txt "path = " ++ filename ++ txt ";") (universal_newlines stored) = false ->
  let content := universal_newlines stored in
  let w' := snd (add_file_to_project PBXPROJ filename group w) in
  backup_path PBXPROJ = (PBXPROJ +:+ ".backup")%string /\
  backup_path PBXPROJ <> PBXPROJ /\
  files w' !! backup_path PBXPROJ = Some content /\
  (~ In CR stored -> files w' !! backup_path PBXPROJ = Some stored) /\
  exists (before : list event) (updated : text) (line1 line2 : text),
    log w' = log w ++ before ++
      [ WriteFile (backup_path PBXPROJ) content; Print line1;
        WriteFile PBXPROJ updated; Print line2 ] /\
    existsb is_write before = false /\
    files w' !! PBXPROJ = Some updated.
Proof.
  intros Hg Hs Hc content w'. destruct (dict_mem_get _ Hg) as [gid Hgid].
  pose proof (read_text_stored _ _ _ Hs) as Hf.
  subst w'. rewrite (run_success _ _ _ _ _ _ Hgid Hf Hc). cbn [snd files log].
  assert (Hb : forall (m : gmap string text) (v : text),
             <[PBXPROJ:=v]> (<[backup_path PBXPROJ:=content]> m)
               !! backup_path PBXPROJ = Some content).
  { intros m v.
    rewrite lookup_insert_ne by (intros E; symmetry in E; by apply backup_path_ne in E).
    by rewrite lookup_insert_eq. }
  split; [done|]. split; [apply backup_path_ne|]. split; [apply Hb|]. split.
  - intros Hcr. fold content. rewrite Hb. subst content.
    by rewrite universal_newlines_id.
  - eexists (announce _ _ _ _ ++ [ReadFile PBXPROJ]), _, _, _.
    rewrite <- !app_assoc. split; [reflexivity|].
    split; [reflexivity|]. by rewrite lookup_insert_eq.
Qed.

Lemma backup_before_write_witness :
  let w := world0 (<[ (sample_path +:+ ".backup")%string := txt "an older backup" ]>
                     {[ sample_path := sample_manifest ]}) (fun n => n) in
  dict_mem (txt "Models") GROUP_IDS = true /\
  files w !! sample_path = Some sample_manifest /\
  contains (txt "path = " ++ txt "Foo.swift" ++ txt ";")
    (universal_newlines sample_manifest) = false /\
  existsb (Ascii.eqb CR) sample_manifest = false /\
  files (snd (add_file_to_project sample_path (txt "Foo.swift") (txt "Models") w))
    !! backup_path sample_path = Some sample_manifest.
Proof.
  intros w.
  assert (Hg : dict_mem (txt "Models") GROUP_IDS = true) by reflexivity.
  assert (Hf : files w !! sample_path = Some sample_manifest) by (vm_compute; reflexivity).
  assert (Hc : contains (txt "path = " ++ txt "Foo.swift" ++ txt ";")
                 (universal_newlines sample_manifest) = false)
    by (vm_compute; reflexivity).
  assert (He : existsb (Ascii.eqb CR) sample_manifest = false) by (vm_compute; reflexivity).
  assert (Hcr : ~ In CR sample_manifest).
  { intros Hin. assert (E : existsb (Ascii.eqb CR) sample_manifest = true).
    { apply existsb_exists. exists CR. split; [exact Hin | apply Ascii.eqb_refl]. }
    rewrite He in E. discriminate E. }
  pose proof (backup_before_write sample_path (txt "Foo.swift") (txt "Models")
                sample_manifest w Hg Hf Hc) as (_ & _ & _ & Hb & _).
  split; [exact Hg|]. split; [exact Hf|]. split; [exact Hc|].
  split; [exact He|]. exact (Hb Hcr).
Defined.

(** A manifest with CR LF line ends: the backup is not what the
    manifest held. *)
Lemma backup_before_write_counterexample :
  let stored := replace [NL] [CR; NL] sample_manifest in
  let w := sample_world stored in
  dict_mem (txt "Models") GROUP_IDS = true /\
  files w !! sample_path = Some stored /\
  contains (txt "path = " ++ txt "Foo.swift" ++ txt ";")
    (universal_newlines stored) = false /\
  fst (add_file_to_project sample_path (txt "Foo.swift") (txt "Models") w) = Ret true /\
  files (snd (add_file_to_project sample_path (txt "Foo.swift") (txt "Models") w))
    !! backup_path sample_path = Some sample_manifest /\
  stored <> sample_manifest /\
  length stored = length sample_manifest + count [NL] sample_manifest.
Proof.
  intros stored w. split; [reflexivity|].
  split; [vm_compute; reflexivity|]. split; [vm_compute; reflexivity|].
  split; [vm_compute; reflexivity|]. split; [vm_compute; reflexivity|].
  split; [|vm_compute; reflexivity].
  intros E. apply (f_equal (@length ascii)) in E. vm_compute in E. discriminate E.
Qed.

(** ** Identifiers *)

Lemma id_from_length (r : nat -> nat) (d : nat) : length (id_from r d) = 24.
Proof. unfold id_from. by rewrite length_map, length_seq. Qed.

Lemma id_from_hex (r : nat -> nat) (d : nat) :
  Forall (fun a => In a (txt "0123456789ABCDEF")) (id_from r d).
Proof.
  unfold id_from. rewrite <- hex_chars_eq. apply List.Forall_forall.
  intros a Ha. apply in_map_iff in Ha as (i & <- & _).
  apply nth_In. change (length hex_chars) with 16.
  apply Nat.mod_upper_bound. lia.
Qed.

(** C7.  [generate_id] returns 24 characters, each of them one of
    0123456789ABCDEF.  The two identifiers of a run come from the next
    48 draws of the random source, 24 each, and from nothing else: the
    manifest is not consulted, so a run succeeds also when the
    identifier it drew is already in the manifest, and when the two
    identifiers are equal. *)
Theorem generate_id_hex24 :
  (forall w : world,
      fst (generate_id w) = Ret (id_from (rand w) (draws w)) /\
      length (id_from (rand w) (draws w)) = 24 /\
      Forall (fun a => In a (txt "0123456789ABCDEF")) (id_from (rand w) (draws w))) /\
  (forall w : world,
      (fileref_id <- generate_id ;; buildfile_id <- generate_id ;;
       ret (fileref_id, buildfile_id))%script w =
      (Ret (id_from (rand w) (draws w), id_from (rand w) (draws w + 24)),
       skip_draws 48 w)) /\
  (let content := sample_manifest ++ txt "0123456789ABCDEF01234567" in
   let w := sample_world content in
   id_from (rand w) (draws w) = txt "0123456789ABCDEF01234567" /\
   contains (id_from (rand w) (draws w)) content = true /\
   fst (add_file_to_project sample_path (txt "Foo.swift") (txt "Models") w) = Ret true) /\
  (let w := world0 {[ sample_path := sample_manifest ]} (fun _ => 10) in
   id_from (rand w) (draws w) = txt "AAAAAAAAAAAAAAAAAAAAAAAA" /\
   id_from (rand w) (draws w + 24) = txt "AAAAAAAAAAAAAAAAAAAAAAAA" /\
   fst (add_file_to_project sample_path (txt "Foo.swift") (txt "Models") w) = Ret true).
Proof.
  split; [|split; [|split]].
  - intros w. rewrite generate_id_run. split; [done|].
    split; [apply id_from_length | apply id_from_hex].
  - intros w. unfold bind. rewrite !generate_id_run.
    unfold ret, skip_draws. cbn [files log rand draws]. do 2 f_equal. lia.
  - by vm_compute.
  - by vm_compute.
Qed.

(** ** The command line *)

(** C8.  When the file name does not end in [.swift], [main] prints
    the warning and then does what it does for any file name: it calls
    [add_file_to_project] with the name as given and exits with 0 when
    the call returns [True], with 1 otherwise.  So when the group is
    known, the manifest can be read and does not contain the path, the
    manifest is rewritten with the insertions and the status is 0. *)
Theorem extension_warning_not_fatal
    (PBXPROJ : string) (prog filename group : text) (rest : list text)
    (w : world) :
  endswith filename (txt ".swift") = false ->
  let warned := emit (Print (txt "Warning: File doesn't have .swift extension")) w in
  let p := main PBXPROJ (prog :: filename :: group :: rest) w in
  p = (success <- add_file_to_project PBXPROJ filename group ;;
       sys_exit (if success then 0 else 1))%script warned /\
  (forall group_id content : text,
      dict_get group GROUP_IDS = Some group_id ->
      read_text w PBXPROJ = Some content ->
      contains (txt "path = " ++ filename ++ txt ";") content = false ->
      fst (add_file_to_project PBXPROJ filename group warned) = Ret true /\
      exit_status (fst p) = 0 /\
      files (snd p) !! PBXPROJ =
        Some (edited group_id group (id_from (rand w) (draws w))
                (id_from (rand w) (draws w + 24)) filename content)).
Proof.
  intros He warned p. subst p. split.
  - rewrite main_run, He. cbn zeta. fold warned. unfold bind, sys_exit, raise.
    by destruct (add_file_to_project _ _ _ _) as [[b|e] w2].
  - intros gid content Hg Hf Hc. rewrite main_run, He. cbn zeta. fold warned.
    assert (Hf' : read_text warned PBXPROJ = Some content) by exact Hf.
    rewrite (run_success _ _ _ _ _ _ Hg Hf' Hc).
    cbn [fst snd files exit_status warned emit rand draws].
    by rewrite lookup_insert_eq.
Qed.

Lemma extension_warning_not_fatal_witness :
  let w := sample_world sample_manifest in
  let argv := [txt "add_swift_file.py"; txt "Bar.txt"; txt "Models"] in
  endswith (txt "Bar.txt") (txt ".swift") = false /\
  exit_status (fst (main sample_path argv w)) = 0 /\
  hd_error (skipn (length (log w)) (log (snd (main sample_path argv w)))) =
    Some (Print (txt "Warning: File doesn't have .swift extension")).
Proof.
  intros w argv.
  assert (He : endswith (txt "Bar.txt") (txt ".swift") = false) by reflexivity.
  pose proof (extension_warning_not_fatal sample_path (txt "add_swift_file.py")
                (txt "Bar.txt") (txt "Models") [] w He) as [Hp Hs].
  destruct (Hs (txt "228C21072ED56D9100F0ACD5") sample_manifest)
    as (_ & Hx & _); [reflexivity | vm_compute; reflexivity | by vm_compute |].
  split; [exact He|]. split; [exact Hx|]. by vm_compute.
Defined.

(** ** The scan of [replace], [count] and [split] *)

Section Scan.

Variables old new : text.
Hypothesis old_nonempty : old <> [].

Lemma replace_from_skip (u r : text) :
  replace_from old new (length u) (u ++ r) = replace_from old new 0 r.
Proof. induction u as [|a u IH]; [done|]. exact IH. Qed.

Lemma count_from_skip (u r : text) :
  count_from old (length u) (u ++ r) = count_from old 0 r.
Proof. induction u as [|a u IH]; [done|]. exact IH. Qed.

Lemma split_from_skip (u r : text) :
  split_from old (length u) (u ++ r) = split_from old 0 r.
Proof. induction u as [|a u IH]; [done|]. exact IH. Qed.

Lemma replace_from_hit (r : text) :
  replace_from old new 0 (old ++ r) = new ++ replace_from old new 0 r.
Proof.
  destruct old as [|a tl] eqn:E; [done|].
  change ((a :: tl) ++ r) with (a :: (tl ++ r)). cbn [replace_from].
  change (a :: (tl ++ r)) with ((a :: tl) ++ r). rewrite startswith_app.
  replace (length (a :: tl) - 1) with (length tl) by (cbn [length]; lia).
  f_equal. rewrite <- E. apply replace_from_skip.
Qed.

Lemma count_from_hit (r : text) :
  count_from old 0 (old ++ r) = S (count_from old 0 r).
Proof.
  destruct old as [|a tl] eqn:E; [done|].
  change ((a :: tl) ++ r) with (a :: (tl ++ r)). cbn [count_from].
  change (a :: (tl ++ r)) with ((a :: tl) ++ r). rewrite startswith_app.
  replace (length (a :: tl) - 1) with (length tl) by (cbn [length]; lia).
  f_equal. rewrite <- E. apply count_from_skip.
Qed.

Lemma split_from_hit (r : text) :
  split_from old 0 (old ++ r) = [] :: split_from old 0 r.
Proof.
  destruct old as [|a tl] eqn:E; [done|].
  change ((a :: tl) ++ r) with (a :: (tl ++ r)). cbn [split_from].
  change (a :: (tl ++ r)) with ((a :: tl) ++ r). rewrite startswith_app.
  replace (length (a :: tl) - 1) with (length tl) by (cbn [length]; lia).
  f_equal. rewrite <- E. apply split_from_skip.
Qed.

Lemma replace_from_miss (a : ascii) (s : text) :
  startswith (a :: s) old = false ->
  replace_from old new 0 (a :: s) = a :: replace_from old new 0 s.
Proof. intros H. cbn [replace_from]. by rewrite H. Qed.

Lemma count_from_miss (a : ascii) (s : text) :
  startswith (a :: s) old = false ->
  count_from old 0 (a :: s) = count_from old 0 s.
Proof. intros H. cbn [count_from]. by rewrite H. Qed.

Lemma split_from_miss (a : ascii) (s : text) :
  startswith (a :: s) old = false ->
  split_from old 0 (a :: s) = push_front a (split_from old 0 s).
Proof. intros H. cbn [split_from]. by rewrite H. Qed.

(** Induction along the scan: at each position either [old] starts
    there, and the scan resumes after it, or it does not, and the scan
    moves on by one character. *)
Lemma scan_ind (P : text -> Prop) :
  P [] ->
  (forall r, P r -> P (old ++ r)) ->
  (forall a s, startswith (a :: s) old = false -> P s -> P (a :: s)) ->
  forall s, P s.
Proof.
  intros Hnil Hhit Hmiss s.
  remember (length s) as n eqn:Hn. revert s Hn.
  induction n as [n IH] using lt_wf_ind. intros s Hn.
  destruct s as [|a s]; [done|].
  destruct (startswith (a :: s) old) eqn:E.
  - apply startswith_inv in E as [r Hr]. rewrite Hr. apply Hhit.
    apply (IH (length r)); [|done].
    rewrite Hn, Hr, length_app. destruct old; [done|]. simpl. lia.
  - apply Hmiss; [done|]. apply (IH (length s)); [|done]. subst n. simpl. lia.
Qed.

Lemma split_from_nonempty (s : text) : split_from old 0 s <> [].
Proof.
  induction s as [| r IH | a s E IH] using scan_ind.
  - done.
  - by rewrite split_from_hit.
  - rewrite split_from_miss by done. by destruct (split_from old 0 s).
Qed.

Lemma join_push_front (sep : text) (a : ascii) (ps : list text) :
  ps <> [] -> join sep (push_front a ps) = a :: join sep ps.
Proof. destruct ps as [|p [|q ps]]; done. Qed.

Lemma join_cons (sep p : text) (ps : list text) :
  ps <> [] -> join sep (p :: ps) = p ++ sep ++ join sep ps.
Proof. by destruct ps. Qed.

(** [old.join(s.split(old)) == s] *)
Lemma join_split (s : text) : join old (split old s) = s.
Proof.
  unfold split. induction s as [| r IH | a s E IH] using scan_ind.
  - done.
  - rewrite split_from_hit, join_cons by apply split_from_nonempty.
    by rewrite IH.
  - rewrite split_from_miss, join_push_front by (done || apply split_from_nonempty).
    by rewrite IH.
Qed.

Lemma replace_unfold (s : text) : replace old new s = replace_from old new 0 s.
Proof. unfold replace. by destruct old. Qed.

(** [s.replace(old, new) == new.join(s.split(old))] *)
Lemma replace_join_split (s : text) :
  replace old new s = join new (split old s).
Proof.
  rewrite replace_unfold. unfold split.
  induction s as [| r IH | a s E IH] using scan_ind.
  - done.
  - rewrite replace_from_hit, split_from_hit, join_cons by apply split_from_nonempty.
    by rewrite IH.
  - rewrite replace_from_miss, split_from_miss, join_push_front
      by (done || apply split_from_nonempty).
    by rewrite IH.
Qed.

(** [len(s.split(old)) == s.count(old) + 1] *)
Lemma length_split (s : text) : length (split old s) = S (count old s).
Proof.
  unfold split, count. induction s as [| r IH | a s E IH] using scan_ind.
  - done.
  - rewrite split_from_hit, count_from_hit. cbn [length]. by rewrite IH.
  - rewrite split_from_miss, count_from_miss by done. rewrite <- IH.
    pose proof (split_from_nonempty s). by destruct (split_from old 0 s).
Qed.

Lemma contains_cons_false (a : ascii) (s : text) :
  contains old (a :: s) = false ->
  startswith (a :: s) old = false /\ contains old s = false.
Proof. cbn [contains]. by rewrite orb_false_iff. Qed.

(** [old not in s] exactly when [s.count(old) == 0]. *)
Lemma count_zero_iff (s : text) : count old s = 0 <-> contains old s = false.
Proof.
  unfold count. induction s as [|a s IH].
  - cbn. destruct old; [done|]. done.
  - cbn [count_from contains]. destruct (startswith (a :: s) old) eqn:E; cbn [orb].
    + done.
    + exact IH.
Qed.

(** Without an occurrence of [old], [replace] changes nothing. *)
Lemma replace_absent (s : text) :
  contains old s = false -> replace old new s = s.
Proof.
  intros H. rewrite replace_unfold.
  induction s as [|a s IH]; [done|].
  apply contains_cons_false in H as [H1 H2].
  rewrite replace_from_miss by done. by rewrite IH.
Qed.

(** With one occurrence, [replace] changes that one. *)
Lemma replace_once (s : text) :
  count old s = 1 ->
  exists p q, split old s = [p; q] /\ s = p ++ old ++ q /\
              replace old new s = p ++ new ++ q.
Proof.
  intros H. pose proof (length_split s) as Hl. rewrite H in Hl.
  destruct (split old s) as [|p [|q [|]]] eqn:E; try done.
  exists p, q. split; [done|].
  split; [by rewrite <- (join_split s), E | by rewrite replace_join_split, E].
Qed.

End Scan.

(** ** Insertions that find nothing to insert into *)

Lemma main_success
    (PBXPROJ : string) (prog filename group group_id content : text)
    (rest : list text) (w : world) :
  dict_get group GROUP_IDS = Some group_id ->
  read_text w PBXPROJ = Some content ->
  contains (path_key filename) content = false ->
  let p := main PBXPROJ (prog :: filename :: group :: rest) w in
  fst p = Raise (SystemExit 0) /\
  files (snd p) !! PBXPROJ =
    Some (edited group_id group (id_from (rand w) (draws w))
            (id_from (rand w) (draws w + 24)) filename content).
Proof.
  intros Hg Hf Hc p. subst p. rewrite main_run. cbn zeta.
  set (w1 := if endswith _ _ then w else _).
  assert (Hf1 : read_text w1 PBXPROJ = Some content) by (subst w1; by destruct (endswith _ _)).
  assert (Hr : rand w1 = rand w) by (subst w1; by destruct (endswith _ _)).
  assert (Hd : draws w1 = draws w) by (subst w1; by destruct (endswith _ _)).
  rewrite (run_success _ _ _ _ _ _ Hg Hf1 Hc). cbn [fst snd files].
  by rewrite lookup_insert_eq, Hr, Hd.
Qed.

(** C2.  In a call that passed the gates, when the search for the
    children of the group (line 84), or the search for the files of the
    Sources build phase (line 94), finds no match, that insertion
    leaves the text as it is; nothing is raised and nothing else is
    printed than in any successful run; the text is written to the
    manifest and the call returns [True]: the process ends with
    status 0. *)
Theorem unmatched_pattern_skipped
    (PBXPROJ : string) (prog filename group group_id content : text)
    (rest : list text) (w : world) :
  dict_get group GROUP_IDS = Some group_id ->
  read_text w PBXPROJ = Some content ->
  contains (txt "path = " ++ filename ++ txt ";") content = false ->
  let fileref_id := id_from (rand w) (draws w) in
  let buildfile_id := id_from (rand w) (draws w + 24) in
  let c6 := add_buildfile buildfile_id fileref_id filename
              (add_fileref fileref_id filename content) in
  let c7 := add_to_group group_id group fileref_id filename c6 in
  let c8 := add_to_sources buildfile_id filename c7 in
  search (group_pattern group_id group) c6 = None \/
  search sources_pattern c7 = None ->
  let r := add_file_to_project PBXPROJ filename group w in
  (c7 = c6 \/ c8 = c7) /\
  (search (group_pattern group_id group) c6 = None -> c7 = c6) /\
  (search sources_pattern c7 = None -> c8 = c7) /\
  fst r = Ret true /\
  log (snd r) = log w ++
    [ Print (txt "Adding " ++ filename ++ txt " to " ++ group ++ txt "...");
      Print (txt "FileRef ID: " ++ fileref_id);
      Print (txt "BuildFile ID: " ++ buildfile_id);
      ReadFile PBXPROJ;
      WriteFile (backup_path PBXPROJ) content;
      Print (txt "Backup saved to: " ++ txt (backup_path PBXPROJ));
      WriteFile PBXPROJ c8;
      Print (txt "Successfully added " ++ filename ++ txt " to " ++ group ++ txt "!") ] /\
  files (snd r) !! PBXPROJ = Some c8 /\
  exit_status (fst (main PBXPROJ (prog :: filename :: group :: rest) w)) = 0.
Proof.
  intros Hg Hf Hc fileref_id buildfile_id c6 c7 c8 Hnone r.
  assert (H7 : search (group_pattern group_id group) c6 = None -> c7 = c6).
  { intros Hs. subst c7. unfold add_to_group. by rewrite Hs. }
  assert (H8 : search sources_pattern c7 = None -> c8 = c7).
  { intros Hs. subst c8. unfold add_to_sources. by rewrite Hs. }
  split; [|split; [|split]]; [destruct Hnone; auto | done | done |].
  - subst r. rewrite (run_success _ _ _ _ _ _ Hg Hf Hc). cbn [fst snd files log].
    split; [done|]. split; [done|]. split; [by rewrite lookup_insert_eq|].
    destruct (main_success PBXPROJ prog filename group group_id content rest w Hg Hf Hc)
      as [-> _].
    done.
Qed.

(** A manifest in which the group and the build phase have other
    identifiers than the script expects. *)
Lemma unmatched_pattern_skipped_witness :
  let content := unlines
    [ txt "/* End PBXBuildFile section */";
      txt "/* End PBXFileReference section */";
      [TAB; TAB] ++ txt "FFFFFFFFFFFFFFFFFFFFFFFF /* Models */ = {";
      [TAB; TAB; TAB] ++ txt "isa = PBXGroup;";
      [TAB; TAB; TAB] ++ txt "children = (";
      [TAB; TAB; TAB] ++ txt ");" ] in
  let w := sample_world content in
  let r := add_file_to_project sample_path (txt "Foo.swift") (txt "Models") w in
  fst r = Ret true /\
  files (snd r) !! sample_path = Some (unlines
    [ [TAB; TAB] ++ txt "89ABCDEF0123456789ABCDEF /* Foo.swift in Sources */ = {isa = PBXBuildFile; fileRef = 0123456789ABCDEF01234567 /* Foo.swift */; };";
      txt "/* End PBXBuildFile section */";
      [TAB; TAB] ++ txt "0123456789ABCDEF01234567 /* Foo.swift */ = {isa = PBXFileReference; lastKnownFileType = sourcecode.swift; path = Foo.swift; sourceTree = " ++ [DQUOTE] ++ txt "<group>" ++ [DQUOTE] ++ txt "; };";
      txt "/* End PBXFileReference section */";
      [TAB; TAB] ++ txt "FFFFFFFFFFFFFFFFFFFFFFFF /* Models */ = {";
      [TAB; TAB; TAB] ++ txt "isa = PBXGroup;";
      [TAB; TAB; TAB] ++ txt "children = (";
      [TAB; TAB; TAB] ++ txt ");" ]).
Proof.
  intros content w r.
  pose proof (unmatched_pattern_skipped sample_path (txt "add_swift_file.py")
    (txt "Foo.swift") (txt "Models") (txt "228C21072ED56D9100F0ACD5") content [] w
    eq_refl eq_refl) as H.
  cbv zeta in H.
  destruct H as (_ & _ & _ & Hr & _ & Hf & _).
  - by vm_compute.
  - left. by vm_compute.
  - split; [exact Hr|]. etransitivity; [exact Hf|]. by vm_compute.
Defined.

(** ** Occurrences and separators *)

Lemma contains_nil (h : text) : contains [] h = true.
Proof. by destruct h. Qed.

Lemma contains_app_l (n l r : text) :
  contains n l = true -> contains n (l ++ r) = true.
Proof.
  rewrite !contains_iff. intros (u & v & ->). exists u, (v ++ r).
  by rewrite <- !app_assoc.
Qed.

Lemma contains_app_r (n l r : text) :
  contains n r = true -> contains n (l ++ r) = true.
Proof.
  rewrite !contains_iff. intros (u & v & ->). exists (l ++ u), v.
  by rewrite <- !app_assoc.
Qed.

(** A prefix without the character [c] ends before the first [c]. *)
Lemma prefix_before_sep (n v l r : text) (c : ascii) :
  ~ In c n -> n ++ v = l ++ c :: r -> exists t, l = n ++ t.
Proof.
  revert l. induction n as [|a n IH]; intros l Hc E.
  - by exists l.
  - destruct l as [|b l]; simplify_eq/=.
    + destruct Hc. by left.
    + destruct (IH l) as [t ->]; [intros ?; apply Hc; by right | done |].
      by exists t.
Qed.

(** An occurrence of a text without the character [c] lies on one side
    of a [c]. *)
Lemma contains_sep (n l r : text) (c : ascii) :
  ~ In c n ->
  contains n (l ++ c :: r) = true ->
  contains n l = true \/ contains n r = true.
Proof.
  intros Hc. rewrite (contains_iff n (l ++ c :: r)). intros (u & v & E).
  revert l E. induction u as [|a u IH]; intros l E.
  - left. destruct (prefix_before_sep n v l r c Hc) as [t ->]; [done|].
    apply contains_startswith, startswith_app.
  - destruct l as [|b l]; simplify_eq/=.
    + right. apply contains_iff. by exists u, v.
    + destruct (IH l) as [H|H]; [done | left | by right].
      rewrite H. apply orb_true_r.
Qed.

(** Putting an entry [e], which begins with [a] and ends with [b],
    before each separator [x] brings a text [n] without [a] and [b]
    into the result only when [e] itself contains [n]. *)
Lemma contains_join_insert (n e x mid : text) (a b : ascii) :
  e = a :: mid ++ [b] -> ~ In a n -> ~ In b n ->
  forall (ps : list text) (pre : text),
    contains n (pre ++ join (e ++ x) ps) = true ->
    contains n (pre ++ join x ps) = true \/ contains n e = true.
Proof.
  intros -> Ha Hb ps. induction ps as [|p ps IH]; intros pre H; [by left|].
  destruct ps as [|q ps]; [by left|].
  remember (q :: ps) as ps' eqn:Eps.
  assert (Hne : ps' <> []) by (by subst).
  rewrite join_cons in H by done. rewrite join_cons by done.
  replace (pre ++ p ++ ((a :: mid ++ [b]) ++ x) ++ join ((a :: mid ++ [b]) ++ x) ps')
    with ((pre ++ p) ++ a :: (mid ++ b :: (x ++ join ((a :: mid ++ [b]) ++ x) ps'))) in H
    by (rewrite <- !app_assoc; cbn; by rewrite <- !app_assoc).
  apply contains_sep in H as [H|H]; [| |done].
  - left. rewrite app_assoc. by apply contains_app_l.
  - apply contains_sep in H as [H|H]; [| |done].
    + right. change (a :: mid ++ [b]) with ([a] ++ mid ++ [b]).
      by apply contains_app_r, contains_app_l.
    + destruct (IH x H) as [H'|H']; [left | by right].
      rewrite app_assoc. by apply contains_app_r.
Qed.

Lemma FILEREF_END_nonempty : FILEREF_END <> [].
Proof. done. Qed.

Lemma BUILDFILE_END_nonempty : BUILDFILE_END <> [].
Proof. done. Qed.

Lemma fileref_entry_shape (fileref_id filename : text) :
  exists mid, fileref_entry fileref_id filename = TAB :: mid ++ [NL].
Proof.
  exists (TAB :: fileref_id ++ txt " /* " ++ filename ++
    txt " */ = {isa = PBXFileReference; lastKnownFileType = sourcecode.swift; path = " ++
    filename ++ txt "; sourceTree = " ++ [DQUOTE] ++ txt "<group>" ++ [DQUOTE] ++
    txt "; };").
  unfold fileref_entry. cbn [app]. rewrite <- !app_assoc. reflexivity.
Qed.

(** The file-reference entries bring the marker of the build-file
    section into the text only when the entry itself contains it. *)
Lemma add_fileref_keeps_absent (fileref_id filename content : text) :
  contains BUILDFILE_END content = false ->
  contains BUILDFILE_END (fileref_entry fileref_id filename) = false ->
  contains BUILDFILE_END (add_fileref fileref_id filename content) = false.
Proof.
  intros Hc He. unfold add_fileref.
  rewrite (replace_join_split _ _ FILEREF_END_nonempty).
  destruct (fileref_entry_shape fileref_id filename) as [mid Hmid].
  destruct (contains BUILDFILE_END (join _ _)) eqn:E; [|done].
  destruct (contains_join_insert BUILDFILE_END _ FILEREF_END mid TAB NL Hmid)
    with (ps := split FILEREF_END content) (pre := @nil ascii) as [H|H].
  - vm_compute. intuition discriminate.
  - vm_compute. intuition discriminate.
  - exact E.
  - cbn [app] in H. rewrite (join_split _ FILEREF_END_nonempty) in H. congruence.
  - congruence.
Qed.

Lemma text_eqb_neq (a b : text) : text_eqb a b = false -> a <> b.
Proof. intros H E. apply text_eqb_eq in E. congruence. Qed.

(** C10 as stated fails: a manifest without the marker
    [/* End PBXBuildFile section */], and the file name
    [End PBXBuildFile section].  The file-reference entry that step 5
    inserts carries the marker in its comment, and step 6 puts a
    build-file entry before it. *)
Lemma missing_sentinel_counterexample :
  let content := unlines
    [ txt "/* Begin PBXFileReference section */";
      txt "/* End PBXFileReference section */" ] in
  let filename := txt "End PBXBuildFile section" in
  let w := sample_world content in
  let fileref_id := id_from (rand w) (draws w) in
  let buildfile_id := id_from (rand w) (draws w + 24) in
  let c5 := add_fileref fileref_id filename content in
  let r := add_file_to_project sample_path filename (txt "Models") w in
  contains BUILDFILE_END content = false /\
  fst r = Ret true /\
  add_buildfile buildfile_id fileref_id filename c5 <> c5 /\
  exists written,
    files (snd r) !! sample_path = Some written /\
    contains (buildfile_entry buildfile_id fileref_id filename) written = true.
Proof.
  cbv zeta. split; [by vm_compute|]. split; [by vm_compute|]. split.
  - apply text_eqb_neq. by vm_compute.
  - eexists. split; by vm_compute.
Qed.

(** C10, amended.  In a call that passed the gates, step 5 changes
    nothing when the manifest does not contain
    [/* End PBXFileReference section */], and step 6 changes nothing
    when the text it works on, the text after step 5, does not contain
    [/* End PBXBuildFile section */]; that is so when the manifest does
    not contain it and the file-reference entry does not contain it
    either, and when the manifest contains neither marker.  Nothing is
    raised and nothing else is printed than in any successful run; the
    manifest is written, also when the text is the one that was read,
    and the call returns [True]: the process ends with status 0. *)
Theorem missing_sentinel_skipped
    (PBXPROJ : string) (prog filename group group_id content : text)
    (rest : list text) (w : world) :
  dict_get group GROUP_IDS = Some group_id ->
  read_text w PBXPROJ = Some content ->
  contains (txt "path = " ++ filename ++ txt ";") content = false ->
  contains FILEREF_END content = false \/ contains BUILDFILE_END content = false ->
  let fileref_id := id_from (rand w) (draws w) in
  let buildfile_id := id_from (rand w) (draws w + 24) in
  let c5 := add_fileref fileref_id filename content in
  let c6 := add_buildfile buildfile_id fileref_id filename c5 in
  let c8 := edited group_id group fileref_id buildfile_id filename content in
  let r := add_file_to_project PBXPROJ filename group w in
  (c5 = content \/
   (contains BUILDFILE_END (fileref_entry fileref_id filename) = false -> c6 = c5)) /\
  (contains FILEREF_END content = false -> c5 = content) /\
  (contains BUILDFILE_END c5 = false -> c6 = c5) /\
  (contains BUILDFILE_END content = false ->
   contains BUILDFILE_END (fileref_entry fileref_id filename) = false -> c6 = c5) /\
  (contains FILEREF_END content = false -> contains BUILDFILE_END content = false ->
   c6 = content) /\
  fst r = Ret true /\
  log (snd r) = log w ++
    [ Print (txt "Adding " ++ filename ++ txt " to " ++ group ++ txt "...");
      Print (txt "FileRef ID: " ++ fileref_id);
      Print (txt "BuildFile ID: " ++ buildfile_id);
      ReadFile PBXPROJ;
      WriteFile (backup_path PBXPROJ) content;
      Print (txt "Backup saved to: " ++ txt (backup_path PBXPROJ));
      WriteFile PBXPROJ c8;
      Print (txt "Successfully added " ++ filename ++ txt " to " ++ group ++ txt "!") ] /\
  files (snd r) !! PBXPROJ = Some c8 /\
  exit_status (fst (main PBXPROJ (prog :: filename :: group :: rest) w)) = 0.
Proof.
  intros Hg Hf Hc Hlack fileref_id buildfile_id c5 c6 c8 r.
  assert (H5 : contains FILEREF_END content = false -> c5 = content).
  { intros H. subst c5. unfold add_fileref. by apply replace_absent. }
  assert (H6 : contains BUILDFILE_END c5 = false -> c6 = c5).
  { intros H. subst c6. unfold add_buildfile. by apply replace_absent. }
  assert (H6' : contains BUILDFILE_END content = false ->
                contains BUILDFILE_END (fileref_entry fileref_id filename) = false ->
                c6 = c5).
  { intros H He. apply H6. by apply add_fileref_keeps_absent. }
  split; [|split; [|split; [|split; [|split]]]]; try done.
  - destruct Hlack as [H|H]; [left; by apply H5 | right; by apply H6'].
  - intros HX HY. rewrite H6; [by apply H5 | by rewrite (H5 HX)].
  - subst r. rewrite (run_success _ _ _ _ _ _ Hg Hf Hc). cbn [fst snd files log].
    split; [done|]. split; [done|]. split; [by rewrite lookup_insert_eq|].
    destruct (main_success PBXPROJ prog filename group group_id content rest w Hg Hf Hc)
      as [-> _].
    done.
Qed.

(** A manifest with neither marker, no group and no build phase: it is
    written back as it was read. *)
Lemma missing_sentinel_skipped_witness :
  let content := unlines [ txt "// !$*UTF8*$!"; txt "{"; txt "}" ] in
  let w := sample_world content in
  let r := add_file_to_project sample_path (txt "Foo.swift") (txt "Models") w in
  (contains FILEREF_END content = false \/ contains BUILDFILE_END content = false) /\
  fst r = Ret true /\
  files (snd r) !! sample_path = Some content /\
  In (WriteFile sample_path content) (log (snd r)).
Proof.
  intros content w r.
  assert (Hl : contains FILEREF_END content = false \/ contains BUILDFILE_END content = false)
    by (left; by vm_compute).
  pose proof (missing_sentinel_skipped sample_path (txt "add_swift_file.py")
    (txt "Foo.swift") (txt "Models") (txt "228C21072ED56D9100F0ACD5") content [] w
    eq_refl eq_refl) as H.
  cbv zeta in H.
  destruct H as (_ & _ & _ & _ & _ & Hr & Hlog & Hfile & _); [by vm_compute | exact Hl |].
  split; [exact Hl|]. split; [exact Hr|]. split.
  - etransitivity; [exact Hfile|]. by vm_compute.
  - fold r in Hlog. rewrite Hlog. apply in_or_app. right.
    do 6 right. left. by vm_compute.
Defined.

(** ** Replace-all at the markers *)

Lemma startswith_app_l (s t p : text) :
  startswith s p = true -> startswith (s ++ t) p = true.
Proof.
  intros H. apply startswith_inv in H as [r ->]. rewrite <- app_assoc.
  apply startswith_app.
Qed.

Lemma join_head (sep p : text) (ps : list text) :
  exists t, join sep (p :: ps) = p ++ t.
Proof.
  destruct ps as [|q ps]; [exists []; cbn; by rewrite app_nil_r|].
  eexists. by rewrite join_cons.
Qed.

(** The pieces between the occurrences that the scan finds do not
    contain the separator. *)
Lemma split_pieces_free (sep s : text) :
  sep <> [] -> Forall (fun p => contains sep p = false) (split sep s).
Proof.
  intros Hne. unfold split.
  induction s as [| r IH | a s E IH] using (scan_ind sep Hne).
  - constructor; [|done]. by destruct sep.
  - rewrite split_from_hit by done. constructor; [by destruct sep | done].
  - rewrite split_from_miss by done.
    pose proof (join_split sep Hne s) as Hj. unfold split in Hj.
    destruct (split_from sep 0 s) as [|p ps] eqn:Es;
      [by apply (split_from_nonempty sep Hne) in Es|].
    cbn [push_front]. inversion IH as [|? ? Hp Hps]; subst.
    constructor; [|done]. cbn [contains]. rewrite Hp, orb_false_r.
    destruct (startswith (a :: p) sep) eqn:Ep; [|done].
    destruct (join_head sep p ps) as [t Ht]. rewrite Ht in E.
    change (a :: p ++ t) with ((a :: p) ++ t) in E.
    by rewrite (startswith_app_l _ t _ Ep) in E.
Qed.

(** C9 as stated fails for the build-file entry: the sample manifest
    has the marker [/* End PBXBuildFile section */] once; with the file
    name [End PBXBuildFile section] the run succeeds and the text it
    writes has the build-file entry twice.  Step 6 works on the text
    after step 5, in which the comment of the new file-reference entry
    is a second occurrence of the marker. *)
Lemma replace_all_counterexample :
  let filename := txt "End PBXBuildFile section" in
  let w := sample_world sample_manifest in
  let fileref_id := id_from (rand w) (draws w) in
  let buildfile_id := id_from (rand w) (draws w + 24) in
  let r := add_file_to_project sample_path filename (txt "Models") w in
  count BUILDFILE_END sample_manifest = 1 /\
  fst r = Ret true /\
  count BUILDFILE_END (add_fileref fileref_id filename sample_manifest) = 2 /\
  exists written,
    files (snd r) !! sample_path = Some written /\
    count (buildfile_entry buildfile_id fileref_id filename) written = 2.
Proof.
  cbv zeta. split; [by vm_compute|]. split; [by vm_compute|].
  split; [by vm_compute|]. eexists. split; by vm_compute.
Qed.

(** C9, amended.  Steps 5 and 6 replace every occurrence that
    [str.replace] finds: the occurrences counted by [str.count], from
    the left and not overlapping, in the text the step works on, which
    is the manifest for step 5 and the text after step 5 for step 6.
    With [n] such occurrences the text is [n + 1] pieces joined by the
    marker, no piece containing the marker, and the step yields the
    same pieces joined by the new entry followed by the marker: [n]
    copies of the entry, one immediately before each occurrence.  With
    one occurrence, one copy.  The text after step 6 is what steps 7
    and 8 work on, and their result is written. *)
Theorem replace_all_inserts_each
    (PBXPROJ : string) (filename group group_id content : text) (w : world) :
  dict_get group GROUP_IDS = Some group_id ->
  read_text w PBXPROJ = Some content ->
  contains (txt "path = " ++ filename ++ txt ";") content = false ->
  let fileref_id := id_from (rand w) (draws w) in
  let buildfile_id := id_from (rand w) (draws w + 24) in
  let fileref := fileref_entry fileref_id filename in
  let buildfile := buildfile_entry buildfile_id fileref_id filename in
  let c5 := add_fileref fileref_id filename content in
  let c6 := add_buildfile buildfile_id fileref_id filename c5 in
  let r := add_file_to_project PBXPROJ filename group w in
  (let pieces := split FILEREF_END content in
   length pieces = count FILEREF_END content + 1 /\
   Forall (fun p => contains FILEREF_END p = false) pieces /\
   content = join FILEREF_END pieces /\
   c5 = join (fileref ++ FILEREF_END) pieces) /\
  (let pieces := split BUILDFILE_END c5 in
   length pieces = count BUILDFILE_END c5 + 1 /\
   Forall (fun p => contains BUILDFILE_END p = false) pieces /\
   c5 = join BUILDFILE_END pieces /\
   c6 = join (buildfile ++ BUILDFILE_END) pieces) /\
  (count FILEREF_END content = 1 ->
   exists p q, content = p ++ FILEREF_END ++ q /\
               c5 = p ++ fileref ++ FILEREF_END ++ q) /\
  (count BUILDFILE_END c5 = 1 ->
   exists p q, c5 = p ++ BUILDFILE_END ++ q /\
               c6 = p ++ buildfile ++ BUILDFILE_END ++ q) /\
  fst r = Ret true /\
  files (snd r) !! PBXPROJ =
    Some (add_to_sources buildfile_id filename
            (add_to_group group_id group fileref_id filename c6)).
Proof.
  intros Hg Hf Hc fileref_id buildfile_id fileref buildfile c5 c6 r.
  assert (Hall : forall (marker entry s : text), marker <> [] ->
    let pieces := split marker s in
    length pieces = count marker s + 1 /\
    Forall (fun p => contains marker p = false) pieces /\
    s = join marker pieces /\
    replace marker (entry ++ marker) s = join (entry ++ marker) pieces).
  { intros marker entry s Hne pieces. subst pieces.
    rewrite length_split, Nat.add_1_r by done.
    split; [done|]. split; [by apply split_pieces_free|].
    split; [by rewrite join_split | by apply replace_join_split]. }
  assert (Hone : forall (marker entry s : text), marker <> [] ->
    count marker s = 1 ->
    exists p q, s = p ++ marker ++ q /\
                replace marker (entry ++ marker) s = p ++ entry ++ marker ++ q).
  { intros marker entry s Hne H1.
    destruct (replace_once marker (entry ++ marker) Hne s H1) as (p & q & _ & Hs & Hr).
    exists p, q. split; [done|]. by rewrite Hr, <- app_assoc. }
  split; [apply Hall, FILEREF_END_nonempty|].
  split; [apply Hall, BUILDFILE_END_nonempty|].
  split; [apply Hone, FILEREF_END_nonempty|].
  split; [apply Hone, BUILDFILE_END_nonempty|].
  subst r. rewrite (run_success _ _ _ _ _ _ Hg Hf Hc). cbn [fst snd files].
  split; [done|]. by rewrite lookup_insert_eq.
Qed.

(** A manifest with the marker of the file references twice: two
    copies of the entry, one before each. *)
Lemma replace_all_inserts_each_witness :
  let content := unlines
    [ txt "/* End PBXFileReference section */";
      txt "/* End PBXBuildFile section */";
      txt "/* End PBXFileReference section */" ] in
  let w := sample_world content in
  let entry := [TAB; TAB] ++ txt "0123456789ABCDEF01234567 /* Foo.swift */ = {isa = PBXFileReference; lastKnownFileType = sourcecode.swift; path = Foo.swift; sourceTree = " ++ [DQUOTE] ++ txt "<group>" ++ [DQUOTE] ++ txt "; };" ++ [NL] in
  count FILEREF_END content = 2 /\
  add_fileref (id_from (rand w) (draws w)) (txt "Foo.swift") content =
    entry ++ txt "/* End PBXFileReference section */" ++ [NL] ++
    txt "/* End PBXBuildFile section */" ++ [NL] ++
    entry ++ txt "/* End PBXFileReference section */" ++ [NL] /\
  fst (add_file_to_project sample_path (txt "Foo.swift") (txt "Models") w) = Ret true.
Proof.
  intros content w entry.
  pose proof (replace_all_inserts_each sample_path (txt "Foo.swift") (txt "Models")
    (txt "228C21072ED56D9100F0ACD5") content w eq_refl eq_refl) as H.
  cbv zeta in H.
  destruct H as ((_ & _ & _ & H5) & _ & _ & _ & Hr & _); [by vm_compute|].
  split; [by vm_compute|]. split; [|exact Hr].
  etransitivity; [exact H5|]. by vm_compute.
Defined.

(** ** What a match of the patterns says about the text *)

Lemma lit_inv {R : Type} (s l : text) (k : text -> option R) (r : R) :
  (if startswith s l then k (skipn (length l) s) else None) = Some r ->
  exists s1, s = l ++ s1 /\ k s1 = Some r.
Proof.
  destruct (startswith s l) eqn:E; [|done].
  apply startswith_inv in E as [s1 ->]. rewrite drop_app_length. by exists s1.
Qed.

Lemma star_greedy_inv {R : Type} (cls : ascii -> bool)
    (rest : text -> nat -> option R) (s : text) (pos : nat) (r : R) :
  star_greedy cls rest s pos = Some r ->
  exists u s1, s = u ++ s1 /\ forallb cls u = true /\
               rest s1 (pos + length u) = Some r.
Proof.
  revert pos. induction s as [|a s IH]; intros pos H; cbn [star_greedy] in H.
  - exists [], []. by rewrite Nat.add_0_r.
  - destruct (cls a) eqn:Ea.
    + destruct (star_greedy cls rest s (S pos)) as [r'|] eqn:E.
      * injection H as ->. destruct (IH _ E) as (u & s1 & -> & Hu & Hr).
        exists (a :: u), s1. cbn [forallb length]. rewrite Ea, Hu.
        by rewrite Nat.add_succ_r.
      * exists [], (a :: s). by rewrite Nat.add_0_r.
    + exists [], (a :: s). by rewrite Nat.add_0_r.
Qed.

Lemma star_lazy_inv {R : Type} (cls : ascii -> bool)
    (rest : text -> nat -> option R) (s : text) (pos : nat) (r : R) :
  star_lazy cls rest s pos = Some r ->
  exists u s1, s = u ++ s1 /\ forallb cls u = true /\
               rest s1 (pos + length u) = Some r.
Proof.
  revert pos. induction s as [|a s IH]; intros pos H; cbn [star_lazy] in H.
  - destruct (rest [] pos) eqn:E; [|done]. injection H as ->.
    exists [], []. by rewrite Nat.add_0_r.
  - destruct (rest (a :: s) pos) eqn:E.
    + injection H as ->. exists [], (a :: s). by rewrite Nat.add_0_r.
    + destruct (cls a) eqn:Ea; [|done].
      destruct (IH _ H) as (u & s1 & -> & Hu & Hr).
      exists (a :: u), s1. cbn [forallb length]. rewrite Ea, Hu.
      by rewrite Nat.add_succ_r.
Qed.

Lemma star_inv (greedy : bool) (cls : ascii -> bool) (p : list item)
    (s : text) (pos : nat) (c : caps) (r : nat * caps) :
  exec (Star greedy cls :: p) s pos c = Some r ->
  exists u s1, s = u ++ s1 /\ forallb cls u = true /\
               exec p s1 (pos + length u) c = Some r.
Proof.
  destruct greedy; cbn [exec]; [apply star_greedy_inv | apply star_lazy_inv].
Qed.

Lemma exec_lit_inv (l : text) (p : list item) (s : text) (pos : nat) (c : caps)
    (r : nat * caps) :
  exec (Lit l :: p) s pos c = Some r ->
  exists s1, s = l ++ s1 /\ exec p s1 (pos + length l) c = Some r.
Proof.
  cbn [exec]. apply (lit_inv s l (fun s1 => exec p s1 (pos + length l) c)).
Qed.

Lemma exec_open (k : nat) (p : list item) (s : text) (pos : nat) (c : caps) :
  exec (Open k :: p) s pos c = exec p s pos (open_group k pos c).
Proof. reflexivity. Qed.

Lemma exec_close (k : nat) (p : list item) (s : text) (pos : nat) (c : caps) :
  exec (Close k :: p) s pos c = exec p s pos (close_group k pos c).
Proof. reflexivity. Qed.

Lemma search_from_inv (p : list item) (s : text) (pos : nat) (m : rmatch) :
  search_from p s pos = Some m ->
  exists before s1 e c,
    s = before ++ s1 /\
    exec p s1 (pos + length before) no_caps = Some (e, c) /\
    m = {| m_start := pos + length before; m_end := e; m_groups := closed c |}.
Proof.
  revert pos. induction s as [|a s IH]; intros pos H; cbn [search_from] in H.
  - destruct (exec p [] pos no_caps) as [[e c]|] eqn:E; [|done].
    injection H as <-. exists [], [], e, c. by rewrite Nat.add_0_r.
  - destruct (exec p (a :: s) pos no_caps) as [[e c]|] eqn:E.
    + injection H as <-. exists [], (a :: s), e, c. by rewrite Nat.add_0_r.
    + destruct (IH _ H) as (before & s1 & e & c & -> & Hx & ->).
      exists (a :: before), s1, e, c. cbn [length]. by rewrite Nat.add_succ_r.
Qed.

(** A match of a pattern of the shape [list_pattern]: the text is cut
    into what precedes the match, the declaration up to the "(" of the
    list, the list up to its first ")", and what follows from ");" on;
    group 2 is the list. *)
Lemma search_list_pattern (decl isa opening content : text)
    (cls1 cls2 : ascii -> bool) (greedy2 : bool) (m : rmatch) :
  search (list_pattern decl cls1 isa greedy2 cls2 opening) content = Some m ->
  exists before u1 u2 body after,
    content = before ++ (decl ++ u1 ++ isa ++ u2 ++ opening) ++ body ++
              txt ");" ++ after /\
    forallb cls1 u1 = true /\ forallb cls2 u2 = true /\
    forallb not_rparen body = true /\
    mstart m 2 = length (before ++ decl ++ u1 ++ isa ++ u2 ++ opening) /\
    mend m 2 = length (before ++ decl ++ u1 ++ isa ++ u2 ++ opening) + length body.
Proof.
  intros H. apply search_from_inv in H as (before & s1 & e & c & -> & Hx & ->).
  unfold list_pattern in Hx. rewrite exec_open in Hx.
  apply exec_lit_inv in Hx as (s2 & -> & Hx).
  apply star_inv in Hx as (u1 & s3 & -> & Hu1 & Hx).
  apply exec_lit_inv in Hx as (s4 & -> & Hx).
  apply star_inv in Hx as (u2 & s5 & -> & Hu2 & Hx).
  apply exec_lit_inv in Hx as (s6 & -> & Hx).
  rewrite exec_close, exec_open in Hx.
  apply star_inv in Hx as (body & s7 & -> & Hb & Hx).
  rewrite exec_close, exec_open in Hx.
  apply exec_lit_inv in Hx as (after & -> & Hx).
  rewrite exec_close in Hx. cbn [exec] in Hx.
  injection Hx as <- <-.
  exists before, u1, u2, body, after.
  split; [by rewrite <- !app_assoc|]. split; [done|]. split; [done|]. split; [done|].
  unfold mstart, mend, span. cbn. rewrite !length_app. split; lia.
Qed.

Lemma group_pattern_shape (group_id group : text) :
  group_pattern group_id group =
  list_pattern (group_decl group_id group) isspace (txt "isa = PBXGroup;")
    true isspace (txt "children = (").
Proof. reflexivity. Qed.

Lemma sources_pattern_shape :
  sources_pattern =
  list_pattern sources_decl isspace (txt "isa = PBXSourcesBuildPhase;")
    false any_char (txt "files = (").
Proof. reflexivity. Qed.

(** Lines 87-89 and 97-99 on such a cut. *)
Lemma append_to_group2_cut (m : rmatch) (line head body tail : text) :
  mstart m 2 = length head ->
  mend m 2 = length head + length body ->
  append_to_group2 m line (head ++ body ++ tail) =
    head ++ rstrip body ++ line ++ list_end_indent ++ tail.
Proof.
  intros Hs He. unfold append_to_group2, mgroup, slice, slice_to, slice_from.
  rewrite Hs, He. replace (length head + length body - length head) with (length body) by lia.
  rewrite take_app_length, drop_app_length, take_app_length.
  rewrite (app_assoc head body tail), drop_app_length' by (by rewrite length_app).
  by rewrite <- !app_assoc.
Qed.

Lemma lstrip_spaces (ws s : text) :
  forallb isspace ws = true -> lstrip (ws ++ s) = lstrip s.
Proof.
  induction ws as [|a ws IH]; [done|]. cbn [forallb app lstrip].
  intros [-> H]%andb_true_iff. by apply IH.
Qed.

Lemma forallb_rev_true (f : ascii -> bool) (l : text) :
  forallb f l = true -> forallb f (rev l) = true.
Proof.
  induction l as [|a l IH]; [done|]. cbn [forallb rev].
  intros [Ha Hl]%andb_true_iff. rewrite forallb_app. cbn [forallb].
  by rewrite IH, Ha.
Qed.

(** [rstrip] removes the white space at the end, and only that. *)
Lemma rstrip_spaces (s ws : text) :
  forallb isspace ws = true -> rstrip (s ++ ws) = rstrip s.
Proof.
  intros H. unfold rstrip. rewrite rev_app_distr, lstrip_spaces; [done|].
  by apply forallb_rev_true.
Qed.

Lemma rstrip_fixed (s : text) (a : ascii) :
  isspace a = false -> rstrip (s ++ [a]) = s ++ [a].
Proof.
  intros H. unfold rstrip. rewrite rev_app_distr. cbn [rev app lstrip].
  rewrite H. cbn [rev]. by rewrite rev_involutive.
Qed.

Lemma lstrip_split (s : text) :
  exists ws, s = ws ++ lstrip s /\ forallb isspace ws = true.
Proof.
  induction s as [|a s IH]; [by exists []|]. cbn [lstrip].
  destruct (isspace a) eqn:E; [|by exists []].
  destruct IH as (ws & Hs & Hw). exists (a :: ws). cbn [forallb app].
  rewrite E, Hw. by rewrite <- Hs.
Qed.

(** A text is what [rstrip] leaves of it, followed by white space. *)
Lemma rstrip_split (s : text) :
  exists ws, s = rstrip s ++ ws /\ forallb isspace ws = true.
Proof.
  destruct (lstrip_split (rev s)) as (ws & Hs & Hw). exists (rev ws).
  split; [|by apply forallb_rev_true].
  unfold rstrip. by rewrite <- rev_app_distr, <- Hs, rev_involutive.
Qed.

Lemma lstrip_idem (s : text) : lstrip (lstrip s) = lstrip s.
Proof.
  induction s as [|a s IH]; [done|]. cbn [lstrip].
  destruct (isspace a) eqn:E; [done|]. cbn [lstrip]. by rewrite E.
Qed.

Lemma rstrip_idem (s : text) : rstrip (rstrip s) = rstrip s.
Proof. unfold rstrip. by rewrite rev_involutive, lstrip_idem. Qed.

(** ** A pattern matches where the text has its shape *)

Lemma star_greedy_fallback {R : Type} (cls : ascii -> bool)
    (rest : text -> nat -> option R) (s : text) (pos : nat) :
  is_Some (rest s pos) -> is_Some (star_greedy cls rest s pos).
Proof.
  intros H. destruct s as [|a s]; cbn [star_greedy]; [done|].
  destruct (cls a); [|done]. by destruct (star_greedy cls rest s (S pos)).
Qed.

Lemma star_greedy_some {R : Type} (cls : ascii -> bool)
    (rest : text -> nat -> option R) (u s1 : text) (pos : nat) :
  forallb cls u = true -> is_Some (rest s1 (pos + length u)) ->
  is_Some (star_greedy cls rest (u ++ s1) pos).
Proof.
  revert pos. induction u as [|a u IH]; intros pos Hu H.
  - cbn [length] in H. rewrite Nat.add_0_r in H. by apply star_greedy_fallback.
  - cbn [forallb] in Hu. apply andb_true_iff in Hu as [Ha Hu].
    cbn [app star_greedy]. rewrite Ha.
    destruct (IH (S pos) Hu) as [r Hr].
    { cbn [length] in H. by rewrite Nat.add_succ_r in H. }
    by rewrite Hr.
Qed.

Lemma star_lazy_some {R : Type} (cls : ascii -> bool)
    (rest : text -> nat -> option R) (u s1 : text) (pos : nat) :
  forallb cls u = true -> is_Some (rest s1 (pos + length u)) ->
  is_Some (star_lazy cls rest (u ++ s1) pos).
Proof.
  revert pos. induction u as [|a u IH]; intros pos Hu H.
  - cbn [length] in H. rewrite Nat.add_0_r in H. destruct H as [r Hr].
    cbn [app]. destruct s1; cbn [star_lazy]; by rewrite Hr.
  - cbn [forallb] in Hu. apply andb_true_iff in Hu as [Ha Hu].
    cbn [app star_lazy]. destruct (rest (a :: u ++ s1) pos); [done|].
    rewrite Ha. apply IH; [done|].
    cbn [length] in H. by rewrite Nat.add_succ_r in H.
Qed.

Lemma exec_star_some (greedy : bool) (cls : ascii -> bool) (p : list item)
    (u s1 : text) (pos : nat) (c : caps) :
  forallb cls u = true -> is_Some (exec p s1 (pos + length u) c) ->
  is_Some (exec (Star greedy cls :: p) (u ++ s1) pos c).
Proof.
  intros Hu H. destruct greedy; cbn [exec].
  - by apply (star_greedy_some cls (fun s' pos' => exec p s' pos' c)).
  - by apply (star_lazy_some cls (fun s' pos' => exec p s' pos' c)).
Qed.

Lemma exec_lit_app (l : text) (p : list item) (s : text) (pos : nat) (c : caps) :
  exec (Lit l :: p) (l ++ s) pos c = exec p s (pos + length l) c.
Proof. cbn [exec]. by rewrite startswith_app, drop_app_length. Qed.

(** A pattern of the shape [list_pattern] matches at the start of a
    declaration of that shape. *)
Lemma exec_list_pattern_some (decl isa opening u1 u2 body after : text)
    (cls1 cls2 : ascii -> bool) (greedy2 : bool) (pos : nat) (c : caps) :
  forallb cls1 u1 = true -> forallb cls2 u2 = true ->
  forallb not_rparen body = true ->
  is_Some (exec (list_pattern decl cls1 isa greedy2 cls2 opening)
             (decl ++ u1 ++ isa ++ u2 ++ opening ++ body ++ txt ");" ++ after)
             pos c).
Proof.
  intros H1 H2 Hb. unfold list_pattern.
  rewrite exec_open, exec_lit_app. apply exec_star_some; [done|].
  rewrite exec_lit_app. apply exec_star_some; [done|].
  rewrite exec_lit_app, exec_close, exec_open. apply exec_star_some; [done|].
  rewrite exec_close, exec_open, exec_lit_app, exec_close. by cbn [exec].
Qed.

(** [re.search] finds a match when the pattern matches somewhere, and
    the match it finds does not start later. *)
Lemma search_from_some (p : list item) (before s1 : text) (pos : nat) :
  is_Some (exec p s1 (pos + length before) no_caps) ->
  exists m, search_from p (before ++ s1) pos = Some m /\
            m_start m <= pos + length before.
Proof.
  revert pos. induction before as [|a before IH]; intros pos H.
  - cbn [length] in H. rewrite Nat.add_0_r in H. destruct H as [[e c] Hx].
    cbn [app]. destruct s1; cbn [search_from]; rewrite Hx;
      eexists; (split; [done|]); cbn; lia.
  - cbn [app search_from].
    destruct (exec p (a :: before ++ s1) pos no_caps) as [[e c]|].
    + eexists. split; [done|]. cbn. lia.
    + destruct (IH (S pos)) as (m & Hm & Hle).
      { cbn [length] in H. by rewrite Nat.add_succ_r in H. }
      exists m. split; [done|]. cbn [length]. lia.
Qed.

Lemma search_list_pattern_some
    (decl isa opening before u1 u2 body after : text)
    (cls1 cls2 : ascii -> bool) (greedy2 : bool) :
  forallb cls1 u1 = true -> forallb cls2 u2 = true ->
  forallb not_rparen body = true ->
  exists m,
    search (list_pattern decl cls1 isa greedy2 cls2 opening)
      (before ++ decl ++ u1 ++ isa ++ u2 ++ opening ++ body ++ txt ");" ++ after)
    = Some m /\
    m_start m <= length before.
Proof.
  intros H1 H2 Hb. unfold search.
  apply (search_from_some _ before _ 0). by apply exec_list_pattern_some.
Qed.








(** Lines 84-89 and 94-99 on a text in which the pattern matches: the
    new line goes after what the list holds, white space at its end
    apart. *)
Lemma append_after_match (decl isa opening line content : text)
    (cls1 cls2 : ascii -> bool) (greedy2 : bool) (m : rmatch) :
  search (list_pattern decl cls1 isa greedy2 cls2 opening) content = Some m ->
  exists before u1 u2 kept ws after,
    content = before ++ (decl ++ u1 ++ isa ++ u2 ++ opening) ++ (kept ++ ws) ++
              txt ");" ++ after /\
    forallb cls1 u1 = true /\ forallb cls2 u2 = true /\
    forallb not_rparen (kept ++ ws) = true /\
    forallb isspace ws = true /\ rstrip kept = kept /\
    append_to_group2 m line content =
      before ++ (decl ++ u1 ++ isa ++ u2 ++ opening) ++ kept ++ line ++
      list_end_indent ++ txt ");" ++ after.
Proof.
  intros H.
  apply search_list_pattern in H
    as (before & u1 & u2 & body & after & -> & H1 & H2 & Hb & Hs & He).
  destruct (rstrip_split body) as (ws & Hbody & Hws).
  exists before, u1, u2, (rstrip body), ws, after. rewrite <- Hbody.
  split; [done|]. split; [done|]. split; [done|]. split; [done|]. split; [done|].
  split; [apply rstrip_idem|].
  rewrite (app_assoc before). rewrite append_to_group2_cut by done.
  by rewrite <- !app_assoc.
Qed.



(** ** The lines added to the two lists *)




(** ** The four insertions together *)



(** ** What the later steps leave in place *)

Lemma not_rparen_notin (l : text) :
  forallb not_rparen l = true -> ~ In ")"%char l.
Proof.
  intros H Hin. rewrite forallb_forall in H. specialize (H _ Hin). done.
Qed.




(** A text that ends with a character that is not white space, and
    occurs in [h ++ ws] with [ws] white space, occurs in [h]. *)
Lemma contains_before_spaces (n0 h ws : text) (a : ascii) :
  isspace a = false -> forallb isspace ws = true ->
  contains (n0 ++ [a]) (h ++ ws) = true -> contains (n0 ++ [a]) h = true.
Proof.
  intros Ha. induction ws as [|b ws IH] using rev_ind; intros Hws H.
  - by rewrite app_nil_r in H.
  - rewrite forallb_app in Hws. apply andb_true_iff in Hws as [Hws Hb].
    cbn in Hb. rewrite andb_true_r in Hb.
    apply IH; [done|]. apply contains_iff in H as (u & v & E).
    apply contains_iff.
    destruct v as [|c v] using rev_ind.
    + rewrite app_nil_r, !app_assoc in E. apply app_inj_tail in E as [_ ->].
      congruence.
    + clear IHv. exists u, v. rewrite !app_assoc in E.
      apply app_inj_tail in E as [E _]. by rewrite E, <- !app_assoc.
Qed.

(** Lines 87-89 and 97-99 keep in the text every piece without [)]
    that ends with a character that is not white space. *)
Lemma append_keeps (n0 h ws ins t : text) (a : ascii) :
  forallb not_rparen (n0 ++ [a]) = true -> isspace a = false ->
  forallb isspace ws = true ->
  contains (n0 ++ [a]) (h ++ ws ++ ")"%char :: t) = true ->
  contains (n0 ++ [a]) (h ++ ins ++ ")"%char :: t) = true.
Proof.
  intros Hn Ha Hws H. rewrite app_assoc in H.
  apply contains_sep in H as [H|H]; [| |by apply not_rparen_notin].
  - apply contains_app_l. by apply (contains_before_spaces n0 h ws a).
  - rewrite app_assoc. apply contains_app_r.
    change (")"%char :: t) with ([")"%char] ++ t). by apply contains_app_r.
Qed.




Lemma rparen_semicolon : txt ");" = [")"%char; ";"%char].
Proof. reflexivity. Qed.

(** Steps 7 and 8 keep in the text every piece without [)] that ends
    with a character that is not white space. *)
Lemma append_to_group2_keeps (decl isa opening line content n0 : text) (a : ascii)
    (cls1 cls2 : ascii -> bool) (greedy2 : bool) (m : rmatch) :
  search (list_pattern decl cls1 isa greedy2 cls2 opening) content = Some m ->
  forallb not_rparen (n0 ++ [a]) = true -> isspace a = false ->
  contains (n0 ++ [a]) content = true ->
  contains (n0 ++ [a]) (append_to_group2 m line content) = true.
Proof.
  intros Hm Hn Ha Hc.
  apply (append_after_match _ _ _ line) in Hm
    as (before & u1 & u2 & kept & ws & after & -> & _ & _ & _ & Hw & _ & ->).
  rewrite rparen_semicolon in *.
  replace (before ++ (decl ++ u1 ++ isa ++ u2 ++ opening) ++ (kept ++ ws) ++
           [")"%char; ";"%char] ++ after)
    with ((before ++ (decl ++ u1 ++ isa ++ u2 ++ opening) ++ kept) ++ ws ++
          ")"%char :: ";"%char :: after) in Hc
    by (by rewrite <- !app_assoc).
  replace (before ++ (decl ++ u1 ++ isa ++ u2 ++ opening) ++ kept ++ line ++
           list_end_indent ++ [")"%char; ";"%char] ++ after)
    with ((before ++ (decl ++ u1 ++ isa ++ u2 ++ opening) ++ kept) ++
          (line ++ list_end_indent) ++ ")"%char :: ";"%char :: after)
    by (by rewrite <- !app_assoc).
  by apply (append_keeps n0 _ ws).
Qed.

Lemma add_to_group_keeps (group_id group fileref_id filename content n0 : text)
    (a : ascii) (m : rmatch) :
  search (group_pattern group_id group) content = Some m ->
  forallb not_rparen (n0 ++ [a]) = true -> isspace a = false ->
  contains (n0 ++ [a]) content = true ->
  contains (n0 ++ [a]) (add_to_group group_id group fileref_id filename content) = true.
Proof.
  intros Hm. unfold add_to_group. rewrite Hm. rewrite group_pattern_shape in Hm.
  by apply append_to_group2_keeps with (1 := Hm).
Qed.

Lemma add_to_sources_keeps (buildfile_id filename content n0 : text)
    (a : ascii) (m : rmatch) :
  search sources_pattern content = Some m ->
  forallb not_rparen (n0 ++ [a]) = true -> isspace a = false ->
  contains (n0 ++ [a]) content = true ->
  contains (n0 ++ [a]) (add_to_sources buildfile_id filename content) = true.
Proof.
  intros Hm. unfold add_to_sources. rewrite Hm. rewrite sources_pattern_shape in Hm.
  by apply append_to_group2_keeps with (1 := Hm).
Qed.






(** * Further properties of the script *)

(** ** The outcomes of a run *)

Lemma main_usage (PBXPROJ : string) (argv : list text) (w : world) :
  length argv < 3 ->
  main PBXPROJ argv w = (Raise (SystemExit 1), emit (Print __doc__) w).
Proof.
  intros H. unfold main. apply Nat.ltb_lt in H. by rewrite H.
Qed.

Lemma argv_cases (argv : list text) :
  length argv < 3 \/
  exists prog filename group rest, argv = prog :: filename :: group :: rest.
Proof.
  destruct argv as [|prog [|filename [|group rest]]]; cbn; [lia | lia | lia |].
  right. by exists prog, filename, group, rest.
Qed.

(** The world in which [main] calls [add_file_to_project]. *)
Lemma warned_world (filename : text) (w : world) :
  let w1 := if endswith filename (txt ".swift") then w
            else emit (Print (txt "Warning: File doesn't have .swift extension")) w in
  files w1 = files w /\ rand w1 = rand w /\ draws w1 = draws w /\
  exists evs, log w1 = log w ++ evs /\ existsb is_file_access evs = false.
Proof.
  cbv zeta. destruct (endswith filename (txt ".swift")); cbn [files rand draws log emit].
  - repeat split. exists []. by rewrite app_nil_r.
  - repeat split. by eexists.
Qed.

(** The four ways in which a call of [add_file_to_project] ends. *)
Lemma add_file_to_project_cases
    (PBXPROJ : string) (filename group : text) (w : world) :
  let r := add_file_to_project PBXPROJ filename group w in
  let fileref_id := id_from (rand w) (draws w) in
  let buildfile_id := id_from (rand w) (draws w + 24) in
  (dict_mem group GROUP_IDS = false /\
   r = (Ret false,
        {| files := files w;
           log := log w ++
             [ Print (txt "Error: Unknown group '" ++ group ++ txt "'");
               Print (txt "Valid groups: " ++ join (txt ", ") (dict_keys GROUP_IDS)) ];
           rand := rand w; draws := draws w |})) \/
  (dict_mem group GROUP_IDS = true /\ files w !! PBXPROJ = None /\
   r = (Raise (FileNotFoundError PBXPROJ),
        {| files := files w;
           log := log w ++ announce filename group fileref_id buildfile_id;
           rand := rand w; draws := draws w + 48 |})) \/
  (exists content,
      dict_mem group GROUP_IDS = true /\ read_text w PBXPROJ = Some content /\
      contains (path_key filename) content = true /\
      r = (Ret false,
           {| files := files w;
              log := log w ++ announce filename group fileref_id buildfile_id ++
                [ ReadFile PBXPROJ;
                  Print (txt "Error: " ++ filename ++
                         txt " already exists in project!") ];
              rand := rand w; draws := draws w + 48 |})) \/
  (exists content group_id,
      dict_get group GROUP_IDS = Some group_id /\
      read_text w PBXPROJ = Some content /\
      contains (path_key filename) content = false /\
      r = (Ret true,
           {| files :=
                <[PBXPROJ := edited group_id group fileref_id buildfile_id
                               filename content]>
                  (<[backup_path PBXPROJ := content]> (files w));
              log := log w ++ announce filename group fileref_id buildfile_id ++
                [ ReadFile PBXPROJ;
                  WriteFile (backup_path PBXPROJ) content;
                  Print (txt "Backup saved to: " ++ txt (backup_path PBXPROJ));
                  WriteFile PBXPROJ
                    (edited group_id group fileref_id buildfile_id filename content);
                  Print (txt "Successfully added " ++ filename ++ txt " to " ++
                         group ++ txt "!") ];
              rand := rand w; draws := draws w + 48 |})).
Proof.
  cbv zeta. destruct (dict_mem group GROUP_IDS) eqn:Hg.
  - destruct (read_text w PBXPROJ) as [content|] eqn:Hf.
    + destruct (contains (path_key filename) content) eqn:Hc.
      * right. right. left. exists content.
        by rewrite (run_duplicate _ _ _ _ _ Hg Hf Hc).
      * right. right. right. destruct (dict_mem_get _ Hg) as [gid Hgid].
        exists content, gid. by rewrite (run_success _ _ _ _ _ _ Hgid Hf Hc).
    + right. left. apply read_text_None in Hf.
      by rewrite (run_missing _ _ _ _ Hg Hf).
  - left. by rewrite (run_unknown_group _ _ _ _ Hg).
Qed.

Lemma main_run_fst (PBXPROJ : string) (prog filename group : text)
    (rest : list text) (w : world) :
  let w1 := if endswith filename (txt ".swift") then w
            else emit (Print (txt "Warning: File doesn't have .swift extension")) w in
  fst (main PBXPROJ (prog :: filename :: group :: rest) w) =
    match fst (add_file_to_project PBXPROJ filename group w1) with
    | Ret success => Raise (SystemExit (if success then 0 else 1))
    | Raise e => Raise e
    end.
Proof.
  rewrite main_run. cbv zeta.
  by destruct (add_file_to_project _ _ _ _) as [[b|e] w2].
Qed.

Lemma main_run_snd (PBXPROJ : string) (prog filename group : text)
    (rest : list text) (w : world) :
  let w1 := if endswith filename (txt ".swift") then w
            else emit (Print (txt "Warning: File doesn't have .swift extension")) w in
  snd (main PBXPROJ (prog :: filename :: group :: rest) w) =
    snd (add_file_to_project PBXPROJ filename group w1).
Proof.
  rewrite main_run. cbv zeta.
  by destruct (add_file_to_project _ _ _ _) as [[b|e] w2].
Qed.

(** What a call leaves as it was: the files at other paths, and the
    random source; the log is only added to. *)
Lemma add_file_to_project_frame
    (PBXPROJ : string) (filename group : text) (w : world) (path : string) :
  path <> PBXPROJ -> path <> backup_path PBXPROJ ->
  let w' := snd (add_file_to_project PBXPROJ filename group w) in
  files w' !! path = files w !! path /\ rand w' = rand w /\
  exists evs, log w' = log w ++ evs.
Proof.
  intros H1 H2. cbv zeta.
  destruct (add_file_to_project_cases PBXPROJ filename group w)
    as [[_ ->] | [(_ & _ & ->) | [(c & _ & _ & _ & ->) | (c & g & _ & _ & _ & ->)]]];
    cbn [snd files rand log]; (split; [|split; [done | by eexists]]); try done.
  by rewrite !lookup_insert_ne.
Qed.

(** X1.  Whatever the arguments and the world, a call of
    [add_file_to_project], and a run of [main], leave every file other
    than the manifest and its backup as it was; they do not touch the
    random source, and what was on the log stays there. *)
Theorem other_files_untouched
    (PBXPROJ : string) (argv : list text) (filename group : text) (w : world)
    (path : string) :
  path <> PBXPROJ -> path <> (PBXPROJ +:+ ".backup")%string ->
  let r := snd (add_file_to_project PBXPROJ filename group w) in
  let p := snd (main PBXPROJ argv w) in
  files r !! path = files w !! path /\
  files p !! path = files w !! path /\
  rand r = rand w /\ rand p = rand w /\
  (exists evs, log r = log w ++ evs) /\
  (exists evs, log p = log w ++ evs).
Proof.
  intros H1 H2 r p.
  destruct (add_file_to_project_frame PBXPROJ filename group w path H1 H2)
    as (Hf & Hr & Hl).
  assert (Hp : files p !! path = files w !! path /\ rand p = rand w /\
               exists evs, log p = log w ++ evs).
  { subst p. destruct (argv_cases argv) as [Hlen | (prog & f & g & rest & ->)].
    - rewrite (main_usage _ _ _ Hlen). cbn [snd files rand log emit].
      repeat split. by eexists.
    - rewrite main_run_snd. cbv zeta.
      destruct (warned_world f w) as (Hwf & Hwr & _ & evs1 & Hwl & _).
      cbv zeta in Hwf, Hwr, Hwl.
      destruct (add_file_to_project_frame PBXPROJ f g
                  (if endswith f (txt ".swift") then w
                   else emit (Print (txt "Warning: File doesn't have .swift extension")) w)
                  path H1 H2) as (Hf' & Hr' & evs2 & Hl').
      cbv zeta in Hf', Hr', Hl'.
      rewrite Hf', Hr', Hl', Hwf, Hwr, Hwl. repeat split.
      exists (evs1 ++ evs2). by rewrite app_assoc. }
  destruct Hp as (? & ? & ?). by repeat split.
Qed.

Lemma other_files_untouched_witness :
  let fs : gmap string text :=
    <[ "Flipix/Models/Foo.swift"%string := txt "struct Foo {}" ]>
      {[ sample_path := sample_manifest ]} in
  let w := world0 fs (fun n => n) in
  let argv := [txt "add_swift_file.py"; txt "Foo.swift"; txt "Models"] in
  "Flipix/Models/Foo.swift"%string <> sample_path /\
  fst (main sample_path argv w) = Raise (SystemExit 0) /\
  files (snd (main sample_path argv w)) !! "Flipix/Models/Foo.swift"%string =
    Some (txt "struct Foo {}").
Proof.
  intros fs w argv.
  assert (H1 : "Flipix/Models/Foo.swift"%string <> sample_path) by done.
  assert (H2 : "Flipix/Models/Foo.swift"%string <> (sample_path +:+ ".backup")%string)
    by done.
  destruct (other_files_untouched sample_path argv (txt "Foo.swift") (txt "Models") w
              _ H1 H2) as (_ & Hp & _).
  split; [exact H1|]. split; [by vm_compute|].
  etransitivity; [exact Hp|]. by vm_compute.
Defined.

(** What a call returns, against what it wrote. *)
Lemma add_file_to_project_outcome
    (PBXPROJ : string) (filename group : text) (w : world) :
  let r := add_file_to_project PBXPROJ filename group w in
  (forall code, fst r <> Raise (SystemExit code)) /\
  (forall key, fst r <> Raise (KeyError key)) /\
  fst r <> Raise IndexError /\
  exists evs,
    log (snd r) = log w ++ evs /\
    (fst r = Ret false -> existsb is_write evs = false /\ files (snd r) = files w) /\
    (fst r = Ret true ->
     exists (before : list event) (content updated line1 line2 : text),
       evs = before ++
         [ WriteFile (backup_path PBXPROJ) content; Print line1;
           WriteFile PBXPROJ updated; Print line2 ] /\
       existsb is_write before = false /\
       read_text w PBXPROJ = Some content /\
       files (snd r) !! backup_path PBXPROJ = Some content /\
       files (snd r) !! PBXPROJ = Some updated).
Proof.
  cbv zeta.
  destruct (add_file_to_project_cases PBXPROJ filename group w)
    as [[Hg ->] | [(Hg & Hf & ->) | [(c & Hg & Hf & Hc & ->) |
        (c & g & Hg & Hf & Hc & ->)]]]; cbn [fst snd log files].
  - do 3 (split; [done|]). eexists. split; [done|]. by split.
  - do 3 (split; [done|]). eexists. split; [done|]. by split.
  - do 3 (split; [done|]). eexists. split; [done|]. by split.
  - do 3 (split; [done|]). eexists. split; [done|].
    split; [done|]. intros _.
    eexists (announce _ _ _ _ ++ [ReadFile PBXPROJ]), c, _, _, _.
    rewrite <- !app_assoc. split; [reflexivity|]. split; [reflexivity|].
    split; [exact Hf|]. split.
    + rewrite lookup_insert_ne by (intros E; symmetry in E; by apply backup_path_ne in E).
      by rewrite lookup_insert_eq.
    + by rewrite lookup_insert_eq.
Qed.

(** X2.  A call of [add_file_to_project] that returns [False] wrote no
    file and left every file as it was.  A call that returns [True]
    made exactly two writes, first of the text it read to the backup
    and then of the manifest.  The look-up of line 81 and
    [random.choice] do not raise: there is no [KeyError] and no
    [IndexError].  A run of [main] ends with status 0 or 1, and with 0
    only when it wrote the backup and the manifest. *)
Theorem outcomes_and_writes
    (PBXPROJ : string) (argv : list text) (filename group : text) (w : world) :
  let r := add_file_to_project PBXPROJ filename group w in
  let p := main PBXPROJ argv w in
  (forall key, fst r <> Raise (KeyError key)) /\
  fst r <> Raise IndexError /\
  (exists evs,
    log (snd r) = log w ++ evs /\
    (fst r = Ret false -> existsb is_write evs = false /\ files (snd r) = files w) /\
    (fst r = Ret true ->
     exists (before : list event) (content updated line1 line2 : text),
       evs = before ++
         [ WriteFile (backup_path PBXPROJ) content; Print line1;
           WriteFile PBXPROJ updated; Print line2 ] /\
       existsb is_write before = false /\
       read_text w PBXPROJ = Some content /\
       files (snd r) !! backup_path PBXPROJ = Some content /\
       files (snd r) !! PBXPROJ = Some updated)) /\
  (exit_status (fst p) = 0 \/ exit_status (fst p) = 1) /\
  (exit_status (fst p) = 0 ->
   exists (before : list event) (content updated line1 line2 : text),
     log (snd p) = log w ++ before ++
       [ WriteFile (backup_path PBXPROJ) content; Print line1;
         WriteFile PBXPROJ updated; Print line2 ] /\
     existsb is_write before = false /\
     read_text w PBXPROJ = Some content /\
     files (snd p) !! backup_path PBXPROJ = Some content /\
     files (snd p) !! PBXPROJ = Some updated).
Proof.
  intros r p.
  destruct (add_file_to_project_outcome PBXPROJ filename group w) as (_ & H1 & H2 & H3).
  split; [done|]. split; [done|]. split; [done|].
  subst p. destruct (argv_cases argv) as [Hlen | (prog & f & g & rest & ->)].
  - rewrite (main_usage _ _ _ Hlen). cbn [fst snd log emit exit_status].
    split; [auto|]. done.
  - rewrite main_run_fst, main_run_snd. cbv zeta.
    destruct (warned_world f w) as (Hwf & _ & _ & evs1 & Hwl & Hacc).
    cbv zeta in Hwl, Hwf.
    destruct (add_file_to_project_outcome PBXPROJ f g
                (if endswith f (txt ".swift") then w
                 else emit (Print (txt "Warning: File doesn't have .swift extension")) w))
      as (Hx & _ & _ & evs2 & Hl & _ & Hw).
    cbv zeta in Hx, Hl, Hw. rewrite Hl, Hwl.
    assert (Hnw : existsb is_write evs1 = false).
    { destruct (endswith f (txt ".swift")); cbn [log emit] in Hwl.
      - assert (evs1 = []) as ->; [|done].
        apply (app_inv_head (log w)). by rewrite app_nil_r.
      - apply app_inv_head in Hwl. by subst. }
    destruct (fst (add_file_to_project PBXPROJ f g _)) as [[|]|e] eqn:Ho;
      cbn [exit_status].
    + split; [auto|]. intros _.
      destruct (Hw eq_refl) as (before & c & u & l1 & l2 & -> & Hb & Hr & Hbk & Hm).
      exists (evs1 ++ before), c, u, l1, l2.
      rewrite <- !app_assoc. split; [done|].
      rewrite existsb_app, Hnw, Hb. split; [done|].
      split; [|done]. unfold read_text in *. by rewrite <- Hwf.
    + split; [auto|]. done.
    + destruct e as [path| |key|code]; cbn; try (split; [auto | done]).
      by destruct (Hx code).
Qed.

(** X3.  When the group is known and the manifest does not exist, the
    call prints its three lines, draws the two identifiers and raises
    [FileNotFoundError]: nothing is written, no backup is made, and
    the process ends with status 1. *)
Theorem missing_manifest_raises
    (PBXPROJ : string) (prog filename group : text) (rest : list text)
    (w : world) :
  dict_mem group GROUP_IDS = true ->
  files w !! PBXPROJ = None ->
  let r := add_file_to_project PBXPROJ filename group w in
  let p := main PBXPROJ (prog :: filename :: group :: rest) w in
  fst r = Raise (FileNotFoundError PBXPROJ) /\
  files (snd r) = files w /\
  log (snd r) = log w ++
    [ Print (txt "Adding " ++ filename ++ txt " to " ++ group ++ txt "...");
      Print (txt "FileRef ID: " ++ id_from (rand w) (draws w));
      Print (txt "BuildFile ID: " ++ id_from (rand w) (draws w + 24)) ] /\
  draws (snd r) = draws w + 48 /\
  fst p = Raise (FileNotFoundError PBXPROJ) /\
  exit_status (fst p) = 1 /\
  files (snd p) = files w.
Proof.
  intros Hg Hf r p. subst r p.
  rewrite (run_missing _ _ _ _ Hg Hf). cbn [fst snd files log draws].
  split; [done|]. split; [done|]. split; [done|]. split; [done|].
  rewrite main_run_fst, main_run_snd. cbv zeta.
  destruct (warned_world filename w) as (Hwf & _).
  cbv zeta in Hwf.
  rewrite run_missing; [|done | by rewrite Hwf].
  cbn [fst snd files exit_status]. by rewrite Hwf.
Qed.

Lemma missing_manifest_raises_witness :
  let w := world0 ∅ (fun n => n) in
  let argv := [txt "add_swift_file.py"; txt "Foo.swift"; txt "Views"] in
  dict_mem (txt "Views") GROUP_IDS = true /\
  files w !! sample_path = None /\
  exit_status (fst (main sample_path argv w)) = 1 /\
  files (snd (main sample_path argv w)) = ∅.
Proof.
  intros w argv.
  assert (Hg : dict_mem (txt "Views") GROUP_IDS = true) by reflexivity.
  assert (Hf : files w !! sample_path = None) by reflexivity.
  destruct (missing_manifest_raises sample_path (txt "add_swift_file.py")
              (txt "Foo.swift") (txt "Views") [] w Hg Hf)
    as (_ & _ & _ & _ & _ & He & Hfs).
  repeat split; assumption.
Defined.

(** X4.  With fewer than two arguments after the name of the program,
    [main] prints the usage text and exits with status 1: no file is
    read or written and no identifier is drawn.  With two arguments or
    more, the name of the program and the arguments after the second
    play no part. *)
Theorem usage_on_few_arguments
    (PBXPROJ : string) (argv : list text) (w : world) :
  length argv < 3 ->
  let p := main PBXPROJ argv w in
  fst p = Raise (SystemExit 1) /\
  exit_status (fst p) = 1 /\
  log (snd p) = log w ++ [Print __doc__] /\
  files (snd p) = files w /\
  draws (snd p) = draws w /\
  (forall (prog prog' filename group : text) (rest rest' : list text) (w' : world),
      main PBXPROJ (prog :: filename :: group :: rest) w' =
      main PBXPROJ (prog' :: filename :: group :: rest') w').
Proof.
  intros Hlen p. subst p. rewrite (main_usage _ _ _ Hlen).
  cbn [fst snd files log draws emit exit_status].
  repeat (split; [done|]).
  intros. by rewrite !main_run.
Qed.

Lemma usage_on_few_arguments_witness :
  let w := sample_world sample_manifest in
  let argv := [txt "add_swift_file.py"; txt "Foo.swift"] in
  length argv < 3 /\
  exit_status (fst (main sample_path argv w)) = 1 /\
  files (snd (main sample_path argv w)) = files w.
Proof.
  intros w argv.
  assert (Hlen : length argv < 3) by (cbn; lia).
  destruct (usage_on_few_arguments sample_path argv w Hlen)
    as (_ & He & _ & Hf & _).
  repeat split; assumption.
Defined.

(** ** One run after another *)

(** Putting [ins] before each occurrence of [x] keeps in the text what
    does not contain the first character of [x]. *)
Lemma join_insert_keeps (n x' ins : text) (o : ascii) :
  ~ In o n ->
  forall (ps : list text) (pre : text),
    contains n (pre ++ join (o :: x') ps) = true ->
    contains n (pre ++ join (ins ++ o :: x') ps) = true.
Proof.
  intros Ho ps. induction ps as [|p ps IH]; intros pre H; [done|].
  destruct ps as [|q ps]; [done|].
  remember (q :: ps) as ps' eqn:Eps.
  assert (Hne : ps' <> []) by (by subst).
  rewrite join_cons in H by done. rewrite join_cons by done.
  replace (pre ++ p ++ (o :: x') ++ join (o :: x') ps')
    with ((pre ++ p) ++ o :: (x' ++ join (o :: x') ps')) in H
    by (by rewrite <- !app_assoc).
  apply contains_sep in H as [H|H]; [| |done].
  - rewrite app_assoc. by apply contains_app_l.
  - apply IH in H.
    replace (pre ++ p ++ (ins ++ o :: x') ++ join (ins ++ o :: x') ps')
      with ((pre ++ p ++ ins ++ [o]) ++ x' ++ join (ins ++ o :: x') ps')
      by (rewrite <- !app_assoc; cbn; by rewrite <- ?app_assoc).
    by apply contains_app_r.
Qed.

Lemma replace_insert_keeps (n x' ins s : text) (o : ascii) :
  ~ In o n -> contains n s = true ->
  contains n (replace (o :: x') (ins ++ o :: x') s) = true.
Proof.
  intros Ho H.
  assert (Hne : o :: x' <> []) by done.
  rewrite (replace_join_split _ _ Hne).
  apply (join_insert_keeps n x' ins o Ho _ []). cbn [app].
  by rewrite (join_split _ Hne).
Qed.

(** Step 5 puts the entry into a text that has the marker. *)
Lemma add_fileref_contains (fileref_id filename content : text) :
  contains FILEREF_END content = true ->
  contains (fileref_entry fileref_id filename)
    (add_fileref fileref_id filename content) = true.
Proof.
  intros H. unfold add_fileref.
  rewrite (replace_join_split _ _ FILEREF_END_nonempty).
  pose proof (length_split _ FILEREF_END_nonempty content) as Hl.
  assert (Hc : count FILEREF_END content <> 0).
  { intros E. apply (count_zero_iff _ FILEREF_END_nonempty) in E. congruence. }
  destruct (split FILEREF_END content) as [|p [|q ps]]; cbn [length] in Hl; [lia | lia |].
  rewrite join_cons by done. apply contains_app_r.
  rewrite <- app_assoc. apply contains_startswith, startswith_app.
Qed.

(** The entry holds the text that line 56 looks for. *)
Lemma fileref_entry_path_key (fileref_id filename : text) :
  contains (path_key filename) (fileref_entry fileref_id filename) = true.
Proof.
  apply contains_iff.
  exists ([TAB; TAB] ++ fileref_id ++ txt " /* " ++ filename ++
          txt " */ = {isa = PBXFileReference; lastKnownFileType = sourcecode.swift; "),
         (txt " sourceTree = " ++ [DQUOTE] ++ txt "<group>" ++ [DQUOTE] ++
          txt "; };" ++ [NL]).
  unfold fileref_entry, path_key. rewrite <- !app_assoc.
  change (txt " */ = {isa = PBXFileReference; lastKnownFileType = sourcecode.swift; path = ")
    with (txt " */ = {isa = PBXFileReference; lastKnownFileType = sourcecode.swift; " ++
          txt "path = ").
  change (txt "; sourceTree = ") with (txt ";" ++ txt " sourceTree = ").
  rewrite <- !app_assoc. reflexivity.
Qed.

Lemma contains_trans (a b c : text) :
  contains a b = true -> contains b c = true -> contains a c = true.
Proof.
  rewrite !contains_iff. intros (l1 & r1 & ->) (l2 & r2 & ->).
  exists (l2 ++ l1), (r1 ++ r2). by rewrite <- !app_assoc.
Qed.

Lemma notin_not_rparen (l : text) :
  ~ In ")"%char l -> forallb not_rparen l = true.
Proof.
  intros H. apply forallb_forall. intros a Ha. unfold not_rparen.
  destruct (Ascii.eqb_spec a ")"%char) as [->|]; done.
Qed.

Lemma add_to_group_keeps_any (group_id group fileref_id filename content n0 : text)
    (a : ascii) :
  forallb not_rparen (n0 ++ [a]) = true -> isspace a = false ->
  contains (n0 ++ [a]) content = true ->
  contains (n0 ++ [a]) (add_to_group group_id group fileref_id filename content) = true.
Proof.
  intros Hn Ha Hc.
  destruct (search (group_pattern group_id group) content) as [m|] eqn:Hm.
  - by apply (add_to_group_keeps _ _ _ _ _ _ _ m).
  - unfold add_to_group. by rewrite Hm.
Qed.

Lemma add_to_sources_keeps_any (buildfile_id filename content n0 : text) (a : ascii) :
  forallb not_rparen (n0 ++ [a]) = true -> isspace a = false ->
  contains (n0 ++ [a]) content = true ->
  contains (n0 ++ [a]) (add_to_sources buildfile_id filename content) = true.
Proof.
  intros Hn Ha Hc.
  destruct (search sources_pattern content) as [m|] eqn:Hm.
  - by apply (add_to_sources_keeps _ _ _ _ _ m).
  - unfold add_to_sources. by rewrite Hm.
Qed.

(** The text that a run writes holds [path = <filename>;] when the
    manifest had the marker of the file references and the file name
    has neither [/] nor [)]. *)
Lemma edited_contains_path_key
    (group_id group fileref_id buildfile_id filename content : text) :
  contains FILEREF_END content = true ->
  ~ In "/"%char filename -> ~ In ")"%char filename ->
  contains (path_key filename)
    (edited group_id group fileref_id buildfile_id filename content) = true.
Proof.
  intros HX Hslash Hparen. unfold edited.
  assert (Hkey : path_key filename = (txt "path = " ++ filename) ++ [";"%char]).
  { unfold path_key. by rewrite <- app_assoc. }
  assert (K5 : contains (path_key filename) (add_fileref fileref_id filename content) = true).
  { eapply contains_trans; [apply fileref_entry_path_key|].
    by apply add_fileref_contains. }
  assert (K6 : contains (path_key filename)
                 (add_buildfile buildfile_id fileref_id filename
                    (add_fileref fileref_id filename content)) = true).
  { unfold add_buildfile.
    apply (replace_insert_keeps _ (tl BUILDFILE_END) _ _ "/"%char); [|done].
    unfold path_key. intros Hin.
    apply in_app_or in Hin as [Hin | Hin].
    - vm_compute in Hin. intuition discriminate.
    - apply in_app_or in Hin as [Hin | Hin]; [done|].
      vm_compute in Hin. intuition discriminate. }
  rewrite Hkey in *.
  assert (Hnp : forallb not_rparen ((txt "path = " ++ filename) ++ [";"%char]) = true).
  { rewrite !forallb_app, (notin_not_rparen _ Hparen). reflexivity. }
  apply add_to_sources_keeps_any; [done | done |].
  by apply add_to_group_keeps_any.
Qed.

(** X5.  After a run that succeeded on a manifest with the marker
    [/* End PBXFileReference section */], for a file name without [/],
    [)] and CR, the manifest holds [path = <filename>;], and so does
    the text read from it: a second call for that file name, for
    whatever group, returns [False] and changes no file. *)
Theorem second_run_rejected
    (PBXPROJ : string) (filename group group2 group_id content : text) (w : world) :
  dict_get group GROUP_IDS = Some group_id ->
  read_text w PBXPROJ = Some content ->
  contains (txt "path = " ++ filename ++ txt ";") content = false ->
  contains FILEREF_END content = true ->
  ~ In "/"%char filename -> ~ In ")"%char filename -> ~ In CR filename ->
  let r1 := add_file_to_project PBXPROJ filename group w in
  let r2 := add_file_to_project PBXPROJ filename group2 (snd r1) in
  fst r1 = Ret true /\
  (exists written,
      files (snd r1) !! PBXPROJ = Some written /\
      contains (txt "path = " ++ filename ++ txt ";") written = true /\
      contains (txt "path = " ++ filename ++ txt ";")
        (universal_newlines written) = true) /\
  fst r2 = Ret false /\
  files (snd r2) = files (snd r1).
Proof.
  intros Hg Hf Hc HX Hslash Hparen Hcr r1 r2.
  assert (Hk := edited_contains_path_key group_id group (id_from (rand w) (draws w))
                  (id_from (rand w) (draws w + 24)) filename content HX Hslash Hparen).
  subst r2 r1. rewrite (run_success _ _ _ _ _ _ Hg Hf Hc). cbn [fst snd].
  set (w1 := {| files := _; log := _; rand := _; draws := _ |}).
  assert (Hs1 : files w1 !! PBXPROJ =
                Some (edited group_id group (id_from (rand w) (draws w))
                        (id_from (rand w) (draws w + 24)) filename content)).
  { subst w1. cbn [files]. by rewrite lookup_insert_eq. }
  assert (Hk' : contains (path_key filename)
                  (universal_newlines
                     (edited group_id group (id_from (rand w) (draws w))
                        (id_from (rand w) (draws w + 24)) filename content)) = true).
  { apply contains_universal_newlines; [| |exact Hk].
    - unfold path_key. intros Hin.
      apply in_app_or in Hin as [Hin | Hin].
      + vm_compute in Hin. intuition discriminate.
      + apply in_app_or in Hin as [Hin | Hin]; [done|].
        vm_compute in Hin. intuition discriminate.
    - vm_compute. discriminate. }
  pose proof (read_text_stored _ _ _ Hs1) as Hf1.
  split; [done|]. split; [by eexists|].
  destruct (dict_mem group2 GROUP_IDS) eqn:Hg2.
  - by rewrite (run_duplicate _ _ _ _ _ Hg2 Hf1 Hk').
  - by rewrite (run_unknown_group _ _ _ _ Hg2).
Qed.

Lemma second_run_rejected_witness :
  let w := sample_world sample_manifest in
  let r1 := add_file_to_project sample_path (txt "Foo.swift") (txt "Models") w in
  let r2 := add_file_to_project sample_path (txt "Foo.swift") (txt "Views") (snd r1) in
  contains FILEREF_END sample_manifest = true /\
  ~ In "/"%char (txt "Foo.swift") /\ ~ In ")"%char (txt "Foo.swift") /\
  ~ In CR (txt "Foo.swift") /\
  fst r1 = Ret true /\ fst r2 = Ret false /\ files (snd r2) = files (snd r1).
Proof.
  intros w r1 r2.
  assert (HX : contains FILEREF_END sample_manifest = true) by (by vm_compute).
  assert (H1 : ~ In "/"%char (txt "Foo.swift")).
  { intros H. vm_compute in H. intuition discriminate. }
  assert (H2 : ~ In ")"%char (txt "Foo.swift")).
  { intros H. vm_compute in H. intuition discriminate. }
  assert (H3 : ~ In CR (txt "Foo.swift")).
  { intros H. vm_compute in H. intuition discriminate. }
  destruct (second_run_rejected sample_path (txt "Foo.swift") (txt "Models")
              (txt "Views") (txt "228C21072ED56D9100F0ACD5") sample_manifest w)
    as (Hr1 & _ & Hr2 & Hfs);
    [reflexivity | vm_compute; reflexivity | by vm_compute | done..|].
  repeat split; assumption.
Defined.

(** X6.  The backup keeps one generation.  After two runs that
    succeed, the backup holds the text that the second run read, which
    is the text that the first run wrote with any CR in it read as LF
    (and that very text when it holds no CR), not the manifest as it
    was before the first run; the second run works on the text it read
    and draws its identifiers from the draws that follow those of the
    first. *)
Theorem backup_keeps_one_generation
    (PBXPROJ : string) (filename1 group1 id1 filename2 group2 id2 content : text)
    (w : world) :
  dict_get group1 GROUP_IDS = Some id1 ->
  dict_get group2 GROUP_IDS = Some id2 ->
  read_text w PBXPROJ = Some content ->
  contains (txt "path = " ++ filename1 ++ txt ";") content = false ->
  let first := edited id1 group1 (id_from (rand w) (draws w))
                 (id_from (rand w) (draws w + 24)) filename1 content in
  contains (txt "path = " ++ filename2 ++ txt ";") (universal_newlines first) = false ->
  let r1 := add_file_to_project PBXPROJ filename1 group1 w in
  let r2 := add_file_to_project PBXPROJ filename2 group2 (snd r1) in
  fst r1 = Ret true /\ fst r2 = Ret true /\
  files (snd r1) !! (PBXPROJ +:+ ".backup")%string = Some content /\
  files (snd r1) !! PBXPROJ = Some first /\
  files (snd r2) !! (PBXPROJ +:+ ".backup")%string = Some (universal_newlines first) /\
  files (snd r2) !! PBXPROJ =
    Some (edited id2 group2 (id_from (rand w) (draws w + 48))
            (id_from (rand w) (draws w + 72)) filename2 (universal_newlines first)) /\
  (~ In CR first ->
   files (snd r2) !! (PBXPROJ +:+ ".backup")%string = Some first /\
   files (snd r2) !! PBXPROJ =
     Some (edited id2 group2 (id_from (rand w) (draws w + 48))
             (id_from (rand w) (draws w + 72)) filename2 first)).
Proof.
  intros Hg1 Hg2 Hf Hc1 first Hc2 r1 r2. subst r2 r1.
  rewrite (run_success _ _ _ _ _ _ Hg1 Hf Hc1). cbn [fst snd].
  set (w1 := {| files := _; log := _; rand := _; draws := _ |}).
  assert (Hs1 : files w1 !! PBXPROJ = Some first).
  { subst w1. cbn [files]. by rewrite lookup_insert_eq. }
  pose proof (read_text_stored _ _ _ Hs1) as Hf1.
  assert (Hne : PBXPROJ <> backup_path PBXPROJ).
  { intros E. symmetry in E. by apply backup_path_ne in E. }
  rewrite (run_success _ _ _ _ _ _ Hg2 Hf1 Hc2). cbn [fst snd files].
  assert (Hb2 : <[PBXPROJ:=edited id2 group2 (id_from (rand w1) (draws w1))
                    (id_from (rand w1) (draws w1 + 24)) filename2
                    (universal_newlines first)]>
                  (<[backup_path PBXPROJ:=universal_newlines first]> (files w1))
                !! (PBXPROJ +:+ ".backup")%string = Some (universal_newlines first)).
  { fold (backup_path PBXPROJ). by rewrite lookup_insert_ne, lookup_insert_eq. }
  assert (Hm2 : <[PBXPROJ:=edited id2 group2 (id_from (rand w1) (draws w1))
                    (id_from (rand w1) (draws w1 + 24)) filename2
                    (universal_newlines first)]>
                  (<[backup_path PBXPROJ:=universal_newlines first]> (files w1))
                !! PBXPROJ =
                Some (edited id2 group2 (id_from (rand w) (draws w + 48))
                        (id_from (rand w) (draws w + 72)) filename2
                        (universal_newlines first))).
  { rewrite lookup_insert_eq. subst w1. cbn [rand draws].
    by replace (draws w + 48 + 24) with (draws w + 72) by lia. }
  split; [done|]. split; [done|]. split.
  { subst w1. cbn [files]. fold (backup_path PBXPROJ).
    by rewrite lookup_insert_ne, lookup_insert_eq. }
  split; [exact Hs1|]. split; [exact Hb2|]. split; [exact Hm2|].
  intros Hcr. rewrite Hb2, Hm2. by rewrite (universal_newlines_id _ Hcr).
Qed.

Lemma backup_keeps_one_generation_witness :
  let w := sample_world sample_manifest in
  let r1 := add_file_to_project sample_path (txt "Foo.swift") (txt "Models") w in
  let r2 := add_file_to_project sample_path (txt "Bar.swift") (txt "Views") (snd r1) in
  fst r2 = Ret true /\
  files (snd r2) !! (sample_path +:+ ".backup")%string = files (snd r1) !! sample_path /\
  files (snd r2) !! (sample_path +:+ ".backup")%string <> Some sample_manifest.
Proof.
  intros w r1 r2.
  destruct (backup_keeps_one_generation sample_path (txt "Foo.swift") (txt "Models")
              (txt "228C21072ED56D9100F0ACD5") (txt "Bar.swift") (txt "Views")
              (txt "228C21172ED56D9100F0ACD5") sample_manifest w)
    as (_ & Hr2 & _ & _ & Hb & _);
    [reflexivity | reflexivity | vm_compute; reflexivity |
     vm_compute; reflexivity | vm_compute; reflexivity |].
  split; [exact Hr2|]. split.
  - etransitivity; [exact Hb|]. vm_compute; reflexivity.
  - fold r1 r2 in Hb. rewrite Hb.
    assert (Hn : universal_newlines
                   (edited (txt "228C21072ED56D9100F0ACD5") (txt "Models")
                      (id_from (rand w) (draws w)) (id_from (rand w) (draws w + 24))
                      (txt "Foo.swift") sample_manifest) <> sample_manifest)
      by (apply text_eqb_neq; vm_compute; reflexivity).
    congruence.
Defined.

(** ** The edit only adds *)

Section Additive.

(** A measure of texts that adds up over concatenation: the length,
    the number of occurrences of a character. *)
Variable mu : text -> nat.
Hypothesis mu_app : forall a b, mu (a ++ b) = mu a + mu b.

Lemma mu_join_insert (x ins : text) (ps : list text) :
  mu (join (ins ++ x) ps) = mu (join x ps) + (length ps - 1) * mu ins.
Proof.
  induction ps as [|p ps IH]; [cbn; lia|].
  destruct ps as [|q ps]; [cbn; lia|].
  remember (q :: ps) as ps' eqn:E.
  assert (Hne : ps' <> []) by (by subst).
  rewrite !join_cons by done. rewrite !mu_app, IH.
  assert (length ps' >= 1) by (subst; cbn; lia).
  cbn [length]. replace (S (length ps') - 1) with (S (length ps' - 1)) by lia.
  cbn [Nat.mul]. lia.
Qed.

Lemma mu_replace_insert (x ins s : text) :
  x <> [] ->
  mu (replace x (ins ++ x) s) = mu s + count x s * mu ins.
Proof.
  intros Hne. rewrite (replace_join_split _ _ Hne), mu_join_insert.
  rewrite (join_split _ Hne), (length_split _ Hne). by rewrite Nat.sub_1_r.
Qed.

End Additive.

Lemma occurrences_app (c : ascii) (a b : text) :
  occurrences c (a ++ b) = occurrences c a + occurrences c b.
Proof. unfold occurrences. by rewrite List.filter_app, length_app. Qed.

Lemma join_insert_sublist (x ins : text) (ps : list text) :
  join x ps `sublist_of` join (ins ++ x) ps.
Proof.
  induction ps as [|p ps IH]; [done|].
  destruct ps as [|q ps]; [done|].
  remember (q :: ps) as ps' eqn:E.
  assert (Hne : ps' <> []) by (by subst).
  rewrite !join_cons by done. apply sublist_app; [done|].
  rewrite <- app_assoc. apply sublist_inserts_l. by apply sublist_app.
Qed.

Lemma replace_insert_sublist (x ins s : text) :
  x <> [] -> s `sublist_of` replace x (ins ++ x) s.
Proof.
  intros Hne. rewrite (replace_join_split _ _ Hne).
  rewrite <- (join_split _ Hne s) at 1. apply join_insert_sublist.
Qed.

(** X7.  Steps 5 and 6 only insert.  The manifest is a subsequence of
    the text after step 5, and that of the text after step 6; each
    step makes the text longer by the length of its entry, once for
    every occurrence of its marker that [str.count] counts in the text
    it works on. *)
Theorem entries_only_inserted
    (fileref_id buildfile_id filename content : text) :
  let c5 := add_fileref fileref_id filename content in
  let c6 := add_buildfile buildfile_id fileref_id filename c5 in
  content `sublist_of` c5 /\ c5 `sublist_of` c6 /\
  length c5 = length content +
    count FILEREF_END content * length (fileref_entry fileref_id filename) /\
  length c6 = length c5 +
    count BUILDFILE_END c5 *
    length (buildfile_entry buildfile_id fileref_id filename).
Proof.
  cbv zeta. unfold add_fileref, add_buildfile.
  split; [apply replace_insert_sublist, FILEREF_END_nonempty|].
  split; [apply replace_insert_sublist, BUILDFILE_END_nonempty|].
  split.
  - apply (mu_replace_insert (@length ascii) (@length_app ascii)), FILEREF_END_nonempty.
  - apply (mu_replace_insert (@length ascii) (@length_app ascii)), BUILDFILE_END_nonempty.
Qed.

Lemma filter_sublist_bool (f : ascii -> bool) (l k : text) :
  l `sublist_of` k -> List.filter f l `sublist_of` List.filter f k.
Proof.
  induction 1 as [|a l k _ IH|a l k _ IH]; cbn [List.filter].
  - done.
  - destruct (f a); [by constructor | done].
  - destruct (f a); [by constructor | done].
Qed.

Lemma nonspace_app (a b : text) : nonspace (a ++ b) = nonspace a ++ nonspace b.
Proof. apply List.filter_app. Qed.

Lemma nonspace_spaces (ws : text) : forallb isspace ws = true -> nonspace ws = [].
Proof.
  induction ws as [|a ws IH]; [done|]. cbn [forallb].
  intros [Ha Hws]%andb_true_iff. unfold nonspace. cbn [List.filter].
  rewrite Ha. cbn [negb]. by apply IH.
Qed.

(** Lines 87-89 and 97-99 take away white space only. *)
Lemma append_to_group2_nonspace (decl isa opening line content : text)
    (cls1 cls2 : ascii -> bool) (greedy2 : bool) (m : rmatch) :
  search (list_pattern decl cls1 isa greedy2 cls2 opening) content = Some m ->
  nonspace content `sublist_of` nonspace (append_to_group2 m line content).
Proof.
  intros Hm.
  apply (append_after_match _ _ _ line) in Hm
    as (before & u1 & u2 & kept & ws & after & -> & _ & _ & _ & Hw & _ & ->).
  rewrite !nonspace_app, (nonspace_spaces ws Hw), app_nil_r.
  apply sublist_app; [done|]. apply sublist_app; [done|].
  apply sublist_app; [done|]. by do 2 apply sublist_inserts_l.
Qed.

Lemma edited_nonspace (group_id group fileref_id buildfile_id filename content : text) :
  nonspace content `sublist_of`
  nonspace (edited group_id group fileref_id buildfile_id filename content).
Proof.
  unfold edited.
  set (c5 := add_fileref fileref_id filename content).
  set (c6 := add_buildfile buildfile_id fileref_id filename c5).
  set (c7 := add_to_group group_id group fileref_id filename c6).
  assert (H5 : nonspace content `sublist_of` nonspace c5).
  { apply filter_sublist_bool, replace_insert_sublist, FILEREF_END_nonempty. }
  assert (H6 : nonspace c5 `sublist_of` nonspace c6).
  { apply filter_sublist_bool, replace_insert_sublist, BUILDFILE_END_nonempty. }
  assert (H7 : nonspace c6 `sublist_of` nonspace c7).
  { subst c7. unfold add_to_group.
    destruct (search (group_pattern group_id group) c6) as [m|] eqn:Hm; [|done].
    rewrite group_pattern_shape in Hm. by apply append_to_group2_nonspace with (1 := Hm). }
  assert (H8 : nonspace c7 `sublist_of` nonspace (add_to_sources buildfile_id filename c7)).
  { unfold add_to_sources.
    destruct (search sources_pattern c7) as [m|] eqn:Hm; [|done].
    rewrite sources_pattern_shape in Hm. by apply append_to_group2_nonspace with (1 := Hm). }
  by repeat (etransitivity; [eassumption|]).
Qed.

(** X8.  A run that succeeds takes nothing but white space away from
    the manifest: the characters of the manifest that are not white
    space are, in their order, a subsequence of those of the text that
    is written. *)
Theorem nothing_but_spaces_removed
    (PBXPROJ : string) (filename group group_id content : text) (w : world) :
  dict_get group GROUP_IDS = Some group_id ->
  read_text w PBXPROJ = Some content ->
  contains (txt "path = " ++ filename ++ txt ";") content = false ->
  let r := add_file_to_project PBXPROJ filename group w in
  exists written,
    files (snd r) !! PBXPROJ = Some written /\
    nonspace content `sublist_of` nonspace written.
Proof.
  intros Hg Hf Hc r. subst r.
  rewrite (run_success _ _ _ _ _ _ Hg Hf Hc). cbn [snd files].
  eexists. split; [by rewrite lookup_insert_eq|]. apply edited_nonspace.
Qed.

(** A list that ends with a long run of blanks: the text gets shorter,
    and still nothing but white space is gone. *)
Lemma nothing_but_spaces_removed_witness :
  let content := txt "228C21072ED56D9100F0ACD5 /* Models */ = {isa = PBXGroup; children = (A,                                                                                );" in
  let w := sample_world content in
  let r := add_file_to_project sample_path (txt "F") (txt "Models") w in
  exists written,
    files (snd r) !! sample_path = Some written /\
    length written < length content /\
    nonspace content `sublist_of` nonspace written.
Proof.
  intros content w r.
  destruct (nothing_but_spaces_removed sample_path (txt "F") (txt "Models")
              (txt "228C21072ED56D9100F0ACD5") content w)
    as (written & Hw & Hs); [reflexivity | reflexivity | by vm_compute |].
  exists written. split; [exact Hw|]. split; [|exact Hs].
  assert (Hl : option_map (@length ascii) (files (snd r) !! sample_path) = Some 115)
    by (vm_compute; reflexivity).
  fold r in Hw. rewrite Hw in Hl. injection Hl as Hl. rewrite Hl.
  vm_compute. lia.
Defined.

(** ** Parentheses and braces *)

Lemma occurrences_notin (c : ascii) (l : text) : ~ In c l -> occurrences c l = 0.
Proof.
  unfold occurrences. induction l as [|a l IH]; [done|]. intros H.
  cbn [List.filter]. destruct (Ascii.eqb_spec c a) as [->|_].
  - destruct H. by left.
  - apply IH. intros ?. apply H. by right.
Qed.

Lemma occurrences_spaces (c : ascii) (ws : text) :
  isspace c = false -> forallb isspace ws = true -> occurrences c ws = 0.
Proof.
  intros Hc Hws. apply occurrences_notin. intros Hin.
  rewrite forallb_forall in Hws. specialize (Hws _ Hin). congruence.
Qed.

Lemma occurrences_id_from (c : ascii) (r : nat -> nat) (d : nat) :
  ~ In c (txt "0123456789ABCDEF") -> occurrences c (id_from r d) = 0.
Proof.
  intros Hc. apply occurrences_notin. intros Hin.
  pose proof (id_from_hex r d) as H. rewrite List.Forall_forall in H. auto.
Qed.

(** The occurrences of a character in the entries and in the lines:
    those of the fixed text, of the identifiers and of the file name. *)
Lemma occurrences_fileref_entry (c : ascii) (fileref_id filename : text) :
  occurrences c (fileref_entry fileref_id filename) =
  occurrences c (fileref_entry [] []) + occurrences c fileref_id +
  2 * occurrences c filename.
Proof. unfold fileref_entry. rewrite !occurrences_app. change (occurrences c []) with 0. lia. Qed.

Lemma occurrences_buildfile_entry (c : ascii) (buildfile_id fileref_id filename : text) :
  occurrences c (buildfile_entry buildfile_id fileref_id filename) =
  occurrences c (buildfile_entry [] [] []) + occurrences c buildfile_id +
  occurrences c fileref_id + 2 * occurrences c filename.
Proof. unfold buildfile_entry. rewrite !occurrences_app. change (occurrences c []) with 0. lia. Qed.

Lemma occurrences_child_line (c : ascii) (fileref_id filename : text) :
  occurrences c (child_line fileref_id filename) =
  occurrences c (child_line [] []) + occurrences c fileref_id +
  occurrences c filename.
Proof. unfold child_line. rewrite !occurrences_app. change (occurrences c []) with 0. lia. Qed.

Lemma occurrences_source_line (c : ascii) (buildfile_id filename : text) :
  occurrences c (source_line buildfile_id filename) =
  occurrences c (source_line [] []) + occurrences c buildfile_id +
  occurrences c filename.
Proof. unfold source_line. rewrite !occurrences_app. change (occurrences c []) with 0. lia. Qed.

(** Lines 87-89 and 97-99 add the characters of the new line, and of
    the other characters change only white space. *)
Lemma append_to_group2_occurrences (c : ascii) (decl isa opening line content : text)
    (cls1 cls2 : ascii -> bool) (greedy2 : bool) (m : rmatch) :
  isspace c = false ->
  search (list_pattern decl cls1 isa greedy2 cls2 opening) content = Some m ->
  occurrences c (append_to_group2 m line content) =
  occurrences c content + occurrences c line.
Proof.
  intros Hc Hm.
  apply (append_after_match _ _ _ line) in Hm
    as (before & u1 & u2 & kept & ws & after & -> & _ & _ & _ & Hw & _ & ->).
  rewrite !occurrences_app, (occurrences_spaces c ws Hc Hw).
  rewrite (occurrences_spaces c list_end_indent Hc eq_refl). lia.
Qed.

(** What the four steps add of a character that is not white space. *)
Lemma edited_occurrences (c : ascii)
    (group_id group fileref_id buildfile_id filename content : text) :
  isspace c = false ->
  let c5 := add_fileref fileref_id filename content in
  let c6 := add_buildfile buildfile_id fileref_id filename c5 in
  let c7 := add_to_group group_id group fileref_id filename c6 in
  occurrences c (edited group_id group fileref_id buildfile_id filename content) =
  occurrences c content +
  count FILEREF_END content * occurrences c (fileref_entry fileref_id filename) +
  count BUILDFILE_END c5 *
    occurrences c (buildfile_entry buildfile_id fileref_id filename) +
  match search (group_pattern group_id group) c6 with
  | Some _ => occurrences c (child_line fileref_id filename)
  | None => 0
  end +
  match search sources_pattern c7 with
  | Some _ => occurrences c (source_line buildfile_id filename)
  | None => 0
  end.
Proof.
  intros Hc c5 c6 c7. unfold edited. fold c5. fold c6. fold c7.
  assert (H5 : occurrences c c5 = occurrences c content +
    count FILEREF_END content * occurrences c (fileref_entry fileref_id filename)).
  { apply (mu_replace_insert (occurrences c) (occurrences_app c)),
      FILEREF_END_nonempty. }
  assert (H6 : occurrences c c6 = occurrences c c5 +
    count BUILDFILE_END c5 *
      occurrences c (buildfile_entry buildfile_id fileref_id filename)).
  { apply (mu_replace_insert (occurrences c) (occurrences_app c)),
      BUILDFILE_END_nonempty. }
  assert (H7 : occurrences c c7 = occurrences c c6 +
    match search (group_pattern group_id group) c6 with
    | Some _ => occurrences c (child_line fileref_id filename)
    | None => 0
    end).
  { subst c7. unfold add_to_group.
    destruct (search (group_pattern group_id group) c6) as [m|] eqn:Hm; [|lia].
    rewrite group_pattern_shape in Hm.
    by apply append_to_group2_occurrences with (2 := Hm). }
  assert (H8 : occurrences c (add_to_sources buildfile_id filename c7) =
    occurrences c c7 +
    match search sources_pattern c7 with
    | Some _ => occurrences c (source_line buildfile_id filename)
    | None => 0
    end).
  { unfold add_to_sources.
    destruct (search sources_pattern c7) as [m|] eqn:Hm; [|lia].
    rewrite sources_pattern_shape in Hm.
    by apply append_to_group2_occurrences with (2 := Hm). }
  lia.
Qed.

(** X9.  For a file name without parentheses and braces, a run that
    succeeds writes a text with as many [(] and as many [)] as the
    manifest had, and with one [{] and one [}] more for each entry
    that steps 5 and 6 inserted: the edit keeps parentheses and braces
    balanced as they were. *)
Theorem brackets_stay_balanced
    (PBXPROJ : string) (filename group group_id content : text) (w : world) :
  dict_get group GROUP_IDS = Some group_id ->
  read_text w PBXPROJ = Some content ->
  contains (txt "path = " ++ filename ++ txt ";") content = false ->
  (forall c, In c (txt "(){}") -> ~ In c filename) ->
  let r := add_file_to_project PBXPROJ filename group w in
  let c5 := add_fileref (id_from (rand w) (draws w)) filename content in
  let entries := count FILEREF_END content + count BUILDFILE_END c5 in
  exists written,
    files (snd r) !! PBXPROJ = Some written /\
    occurrences "("%char written = occurrences "("%char content /\
    occurrences ")"%char written = occurrences ")"%char content /\
    occurrences "{"%char written = occurrences "{"%char content + entries /\
    occurrences "}"%char written = occurrences "}"%char content + entries.
Proof.
  intros Hg Hf Hc Hfn r c5 entries. subst r.
  rewrite (run_success _ _ _ _ _ _ Hg Hf Hc). cbn [snd files].
  eexists. split; [by rewrite lookup_insert_eq|].
  assert (Hocc : forall c, In c (txt "(){}") ->
    occurrences c (edited group_id group (id_from (rand w) (draws w))
                     (id_from (rand w) (draws w + 24)) filename content) =
    occurrences c content +
    count FILEREF_END content * occurrences c (fileref_entry [] []) +
    count BUILDFILE_END c5 * occurrences c (buildfile_entry [] [] [])).
  { intros c Hin.
    assert (Hc4 : c = "("%char \/ c = ")"%char \/ c = "{"%char \/ c = "}"%char).
    { vm_compute in Hin. intuition auto. }
    assert (Hsp : isspace c = false).
    { by destruct Hc4 as [-> | [-> | [-> | ->]]]. }
    assert (Hhex : ~ In c (txt "0123456789ABCDEF")).
    { destruct Hc4 as [-> | [-> | [-> | ->]]]; vm_compute; intuition discriminate. }
    assert (Hline1 : occurrences c (child_line [] []) = 0).
    { by destruct Hc4 as [-> | [-> | [-> | ->]]]. }
    assert (Hline2 : occurrences c (source_line [] []) = 0).
    { by destruct Hc4 as [-> | [-> | [-> | ->]]]. }
    rewrite (edited_occurrences c _ _ _ _ _ _ Hsp). cbv zeta. fold c5.
    rewrite occurrences_fileref_entry, occurrences_buildfile_entry,
      occurrences_child_line, occurrences_source_line.
    rewrite !(occurrences_id_from c _ _ Hhex),
      (occurrences_notin c filename (Hfn c Hin)), Hline1, Hline2.
    destruct (search (group_pattern _ _) _); destruct (search sources_pattern _); lia. }
  rewrite (Hocc "("%char), (Hocc ")"%char), (Hocc "{"%char), (Hocc "}"%char)
    by (vm_compute; auto 8).
  change (occurrences "("%char (fileref_entry [] [])) with 0.
  change (occurrences ")"%char (fileref_entry [] [])) with 0.
  change (occurrences "{"%char (fileref_entry [] [])) with 1.
  change (occurrences "}"%char (fileref_entry [] [])) with 1.
  change (occurrences "("%char (buildfile_entry [] [] [])) with 0.
  change (occurrences ")"%char (buildfile_entry [] [] [])) with 0.
  change (occurrences "{"%char (buildfile_entry [] [] [])) with 1.
  change (occurrences "}"%char (buildfile_entry [] [] [])) with 1.
  subst entries. lia.
Qed.

Lemma brackets_stay_balanced_witness :
  let w := sample_world sample_manifest in
  let r := add_file_to_project sample_path (txt "Foo.swift") (txt "Models") w in
  (forall c, In c (txt "(){}") -> ~ In c (txt "Foo.swift")) /\
  exists written,
    files (snd r) !! sample_path = Some written /\
    occurrences "("%char written = occurrences ")"%char written /\
    occurrences "{"%char written = occurrences "}"%char written.
Proof.
  intros w r.
  assert (Hfn : forall c, In c (txt "(){}") -> ~ In c (txt "Foo.swift")).
  { intros c Hin H. vm_compute in Hin, H. intuition congruence. }
  split; [exact Hfn|].
  destruct (brackets_stay_balanced sample_path (txt "Foo.swift") (txt "Models")
              (txt "228C21072ED56D9100F0ACD5") sample_manifest w)
    as (written & Hw & H1 & H2 & H3 & H4);
    [reflexivity | reflexivity | by vm_compute | exact Hfn |].
  exists written. split; [exact Hw|]. rewrite H1, H2, H3, H4.
  split; vm_compute; reflexivity.
Defined.

(** ** A declaration that is there is found *)

Lemma append_to_group2_contains (decl isa opening line content : text)
    (cls1 cls2 : ascii -> bool) (greedy2 : bool) (m : rmatch) :
  search (list_pattern decl cls1 isa greedy2 cls2 opening) content = Some m ->
  contains line (append_to_group2 m line content) = true.
Proof.
  intros Hm.
  apply (append_after_match _ _ _ line) in Hm
    as (before & u1 & u2 & kept & ws & after & _ & _ & _ & _ & _ & _ & ->).
  apply contains_iff.
  exists (before ++ (decl ++ u1 ++ isa ++ u2 ++ opening) ++ kept),
         (list_end_indent ++ txt ");" ++ after).
  by rewrite <- !app_assoc.
Qed.

(** X10.  The searches of lines 84 and 94 do not miss a declaration
    that is there.  In a text that holds the declaration of the group
    (its identifier and name, [isa = PBXGroup;], [children = (], with
    white space between them), a list without [)] and [);], the search
    of line 84 finds a match that starts at that declaration or before
    it, and step 7 puts the new line into the text.  The same holds
    for the Sources build phase, whatever stands between
    [isa = PBXSourcesBuildPhase;] and [files = (]. *)
Theorem declaration_is_found
    (group_id group fileref_id buildfile_id filename : text)
    (before ws1 ws2 children after : text)
    (before' ws1' skipped files' after' : text) :
  forallb isspace ws1 = true -> forallb isspace ws2 = true ->
  forallb not_rparen children = true ->
  forallb isspace ws1' = true -> forallb not_rparen files' = true ->
  let content :=
    before ++ (group_id ++ txt " /* " ++ group ++ txt " */ = {") ++ ws1 ++
    txt "isa = PBXGroup;" ++ ws2 ++ txt "children = (" ++ children ++
    txt ");" ++ after in
  let content' :=
    before' ++ txt "0B1A00271A2A3A4A5A6A7A8A /* Sources */ = {" ++ ws1' ++
    txt "isa = PBXSourcesBuildPhase;" ++ skipped ++ txt "files = (" ++ files' ++
    txt ");" ++ after' in
  (exists m, search (group_pattern group_id group) content = Some m /\
             m_start m <= length before) /\
  contains ([NL; TAB; TAB; TAB; TAB] ++ fileref_id ++ txt " /* " ++ filename ++
            txt " */,")
    (add_to_group group_id group fileref_id filename content) = true /\
  (exists m, search sources_pattern content' = Some m /\
             m_start m <= length before') /\
  contains ([NL; TAB; TAB; TAB; TAB] ++ buildfile_id ++ txt " /* " ++ filename ++
            txt " in Sources */,")
    (add_to_sources buildfile_id filename content') = true.
Proof.
  intros H1 H2 Hc H1' Hf' content content'.
  assert (Hany : forallb any_char skipped = true) by (by apply forallb_forall).
  destruct (search_list_pattern_some (group_decl group_id group)
              (txt "isa = PBXGroup;") (txt "children = (") before ws1 ws2 children
              after isspace isspace true H1 H2 Hc) as (m & Hm & Hle).
  destruct (search_list_pattern_some sources_decl
              (txt "isa = PBXSourcesBuildPhase;") (txt "files = (") before' ws1'
              skipped files' after' isspace any_char false H1' Hany Hf')
    as (m' & Hm' & Hle').
  assert (Em : search (group_pattern group_id group) content = Some m).
  { rewrite group_pattern_shape. subst content. unfold group_decl in Hm.
    by rewrite <- !app_assoc in Hm |- *. }
  assert (Em' : search sources_pattern content' = Some m').
  { rewrite sources_pattern_shape. by subst content'. }
  split; [by exists m|]. split.
  - unfold add_to_group. rewrite Em. rewrite group_pattern_shape in Em.
    apply (append_to_group2_contains _ _ _ (child_line fileref_id filename)) in Em.
    exact Em.
  - split; [by exists m'|].
    unfold add_to_sources. rewrite Em'. rewrite sources_pattern_shape in Em'.
    apply (append_to_group2_contains _ _ _ (source_line buildfile_id filename)) in Em'.
    exact Em'.
Qed.

(** Two declarations of the group: the first is the one found. *)
Lemma declaration_is_found_witness :
  let decl := txt "228C21072ED56D9100F0ACD5 /* Models */ = { isa = PBXGroup; children = (" in
  let content := txt "/* groups */ " ++ decl ++ txt "A,);" ++ txt " " ++ decl ++ txt "B,);" in
  forallb isspace (txt " ") = true /\
  forallb not_rparen (txt "B,") = true /\
  (exists m, search (group_pattern (txt "228C21072ED56D9100F0ACD5") (txt "Models"))
               content = Some m /\
             m_start m <= length (txt "/* groups */ " ++ decl ++ txt "A,);" ++ txt " ")) /\
  add_to_group (txt "228C21072ED56D9100F0ACD5") (txt "Models") (txt "ID") (txt "F")
    content =
    txt "/* groups */ " ++ decl ++ txt "A," ++ [NL; TAB; TAB; TAB; TAB] ++
    txt "ID /* F */," ++ [NL; TAB; TAB; TAB] ++ txt ");" ++ txt " " ++ decl ++
    txt "B,);".
Proof.
  intros decl content.
  assert (Hs : forallb isspace (txt " ") = true) by reflexivity.
  assert (Hb : forallb not_rparen (txt "B,") = true) by reflexivity.
  destruct (declaration_is_found (txt "228C21072ED56D9100F0ACD5") (txt "Models")
              (txt "ID") (txt "ID2") (txt "F")
              (txt "/* groups */ " ++ decl ++ txt "A,);" ++ txt " ")
              (txt " ") (txt " ") (txt "B,") []
              [] (txt " ") [] [] [] Hs Hs Hb Hs eq_refl)
    as ((m & Hm & Hle) & _).
  split; [exact Hs|]. split; [exact Hb|]. split.
  - exists m. split; [|exact Hle].
    etransitivity; [|exact Hm]. f_equal.
  - vm_compute. reflexivity.
Defined.

(** ** Identifiers and draws *)

Lemma hex_chars_NoDup : List.NoDup hex_chars.
Proof.
  rewrite hex_chars_eq.
  repeat (constructor; [vm_compute; intuition discriminate|]). constructor.
Qed.

(** X11.  The sixteen characters that [generate_id] chooses from are
    distinct: two calls return the same identifier exactly when their
    24 draws agree modulo 16, one by one. *)
Theorem generate_id_follows_draws (w w' : world) :
  fst (generate_id w) = fst (generate_id w') <->
  forall i, i < 24 ->
    rand w (draws w + i) mod 16 = rand w' (draws w' + i) mod 16.
Proof.
  rewrite !generate_id_run. cbn [fst]. unfold id_from. split.
  - intros H i Hi.
    apply (f_equal (fun o => match o with Ret t => t | Raise _ => [] end)) in H.
    cbv beta iota in H.
    rewrite map_ext_in_iff in H. specialize (H i).
    assert (Hin : In i (seq 0 24)) by (apply in_seq; lia).
    specialize (H Hin). cbv beta in H.
    pose proof hex_chars_NoDup as Hnd.
    rewrite (List.NoDup_nth hex_chars "0"%char) in Hnd.
    apply Hnd; [| |exact H];
      change (length hex_chars) with 16; apply Nat.mod_upper_bound; lia.
  - intros H. f_equal. apply map_ext_in. intros i Hi.
    apply in_seq in Hi. by rewrite H by lia.
Qed.

(** ** The warning *)



